(** * ykman-gui/py/yubikey.py: the controller behind the YubiKey Manager GUI

    A shallow embedding of the Python module [yubikey.py].  Python
    exceptions are values of type [exn] carried by [outcome]; the result
    documents (Python dicts) live in a heap so that the two dictionaries
    created once as default arguments of [success] and [failure] are the
    shared objects they are in Python; every call that leaves the module
    (ykman, yubikit, smartcard, pyotherside) is an event answered by an
    abstract device and recorded in a trace. *)

From Stdlib Require Import ZArith List String Ascii Bool Lia.
From Stdlib.Strings Require Import Byte.
From Stdlib Require Import DecimalString.
Import ListNotations.

Local Open Scope string_scope.
Local Open Scope list_scope.

(** ** Exceptions *)

(** The exception classes the module names or can meet, with the base
    class each one has in CPython, pyscard, yubikit, fido2 and ykman. *)
Inductive exn_class :=
| BaseException
| KeyboardInterrupt
| Exception
| ValueError
| BinasciiError              (* binascii.Error *)
| TypeError
| KeyError
| IndexError
| EstablishContextException  (* smartcard.pcsc.PCSCExceptions *)
| CommandError               (* yubikit.core *)
| ApduError                  (* yubikit.core.smartcard *)
| InvalidPinError            (* yubikit.piv *)
| NotSupportedError          (* yubikit.core *)
| CtapError                  (* fido2.ctap *)
| PrepareUploadFailed.       (* ykman.otp *)

Definition exn_class_eqb (a b : exn_class) : bool :=
  match a, b with
  | BaseException, BaseException
  | KeyboardInterrupt, KeyboardInterrupt
  | Exception, Exception
  | ValueError, ValueError
  | BinasciiError, BinasciiError
  | TypeError, TypeError
  | KeyError, KeyError
  | IndexError, IndexError
  | EstablishContextException, EstablishContextException
  | CommandError, CommandError
  | ApduError, ApduError
  | InvalidPinError, InvalidPinError
  | NotSupportedError, NotSupportedError
  | CtapError, CtapError
  | PrepareUploadFailed, PrepareUploadFailed => true
  | _, _ => false
  end.

Definition base (c : exn_class) : option exn_class :=
  match c with
  | BaseException => None
  | KeyboardInterrupt => Some BaseException
  | Exception => Some BaseException
  | ValueError => Some Exception
  | BinasciiError => Some ValueError
  | TypeError => Some Exception
  | KeyError => Some Exception
  | IndexError => Some Exception
  | EstablishContextException => Some Exception
  | CommandError => Some Exception
  | ApduError => Some CommandError
  | InvalidPinError => Some CommandError
  | NotSupportedError => Some ValueError
  | CtapError => Some Exception
  | PrepareUploadFailed => Some Exception
  end.

(** The method resolution order of a class: itself, then its bases.  No
    chain above is longer than four classes. *)
Fixpoint mro_upto (fuel : nat) (c : exn_class) : list exn_class :=
  match fuel with
  | O => [c]
  | S n => c :: match base c with
                | Some b => mro_upto n b
                | None => []
                end
  end.

Definition mro (c : exn_class) : list exn_class := mro_upto 4 c.

Definition issubclass (c k : exn_class) : bool :=
  existsb (exn_class_eqb k) (mro c).

(** An exception object: its class, [str(e)], the status word of an
    [ApduError], the remaining attempts of an [InvalidPinError] and the
    error names of a [PrepareUploadFailed]. *)
Record exn := mkExn {
  exn_type : exn_class;
  exn_str : string;
  exn_sw : Z;
  exn_errors : list string
}.

Definition new_exn (c : exn_class) (msg : string) : exn :=
  mkExn c msg 0%Z [].

(** [except k] catches [e] when [isinstance e k]. *)
Definition isinstance (e : exn) (k : exn_class) : bool :=
  issubclass (exn_type e) k.

Inductive outcome (A : Type) : Type :=
| Ret (a : A)
| Raise (e : exn).

Arguments Ret {A} a.
Arguments Raise {A} e.

(** ** Python values and dictionaries *)

#[local] Set Warnings "-register-all".

Inductive value :=
| VNone
| VBool (b : bool)
| VInt (z : Z)
| VStr (s : string)
| VList (l : list value)
| VDict (d : list (string * value)).

(** A dict with string keys keeps insertion order: assigning to a key
    that is present replaces the value in place, a new key goes last. *)
Definition doc := list (string * value).

Fixpoint dict_set (k : string) (v : value) (d : doc) : doc :=
  match d with
  | [] => [(k, v)]
  | (k', v') :: r =>
      if String.eqb k k' then (k, v) :: r else (k', v') :: dict_set k v r
  end.

Fixpoint dict_get (d : doc) (k : string) : option value :=
  match d with
  | [] => None
  | (k', v) :: r => if String.eqb k k' then Some v else dict_get r k
  end.

Definition dict_keys (d : doc) : list string := map fst d.

(** ** The heap of result documents *)

(** A reference to a dict object. The dict objects of the two
    [def ...(result={})] default arguments are created once, when the
    module is loaded; every dict display makes a new object. *)
Inductive loc :=
| SUCCESS_DEFAULT
| FAILURE_DEFAULT
| Obj (n : nat).

Record heap := mkHeap {
  success_default : doc;
  failure_default : doc;
  objects : list doc
}.

Definition module_heap : heap := mkHeap [] [] [].

Definition heap_get (h : heap) (l : loc) : doc :=
  match l with
  | SUCCESS_DEFAULT => success_default h
  | FAILURE_DEFAULT => failure_default h
  | Obj n => nth n (objects h) []
  end.

Fixpoint list_update (os : list doc) (n : nat) (f : doc -> doc) : list doc :=
  match os, n with
  | [], _ => []
  | d :: r, O => f d :: r
  | d :: r, S n => d :: list_update r n f
  end.

Definition heap_update (h : heap) (l : loc) (f : doc -> doc) : heap :=
  match l with
  | SUCCESS_DEFAULT => mkHeap (f (success_default h)) (failure_default h) (objects h)
  | FAILURE_DEFAULT => mkHeap (success_default h) (f (failure_default h)) (objects h)
  | Obj n => mkHeap (success_default h) (failure_default h) (list_update (objects h) n f)
  end.

Definition heap_alloc (h : heap) (d : doc) : loc * heap :=
  (Obj (List.length (objects h)),
   mkHeap (success_default h) (failure_default h) (objects h ++ [d])).

(** ** binascii.a2b_hex *)

Definition bytes := list byte.

Definition hex_val (c : ascii) : option N :=
  let n := N_of_ascii c in
  if ((48 <=? n) && (n <=? 57))%N then Some (n - 48)%N
  else if ((97 <=? n) && (n <=? 102))%N then Some (n - 87)%N
  else if ((65 <=? n) && (n <=? 70))%N then Some (n - 55)%N
  else None.

Definition is_hex_digit (c : ascii) : bool :=
  match hex_val c with Some _ => true | None => false end.

Definition is_ascii (c : ascii) : bool := (N_of_ascii c <? 128)%N.

Definition mk_byte (hi lo : N) : byte :=
  byte_of_ascii (ascii_of_N (16 * hi + lo)).

Fixpoint unhexlify (l : list ascii) : option bytes :=
  match l with
  | [] => Some []
  | [_] => None
  | a :: b :: r =>
      match hex_val a, hex_val b with
      | Some hi, Some lo =>
          match unhexlify r with
          | Some bs => Some (mk_byte hi lo :: bs)
          | None => None
          end
      | _, _ => None
      end
  end.

(** [a2b_hex] on a str argument: the string must be ASCII (a plain
    ValueError otherwise), of even length and made of hexadecimal digits
    (binascii.Error otherwise). *)
Definition a2b_hex (s : string) : outcome bytes :=
  let cs := list_ascii_of_string s in
  if negb (forallb is_ascii cs) then
    Raise (new_exn ValueError
             "string argument should contain only ASCII characters")
  else if Nat.odd (List.length cs) then
    Raise (new_exn BinasciiError "Odd-length string")
  else
    match unhexlify cs with
    | Some bs => Ret bs
    | None => Raise (new_exn BinasciiError "Non-hexadecimal digit found")
    end.

(** ** repr of a str *)

(** The characters of a str are the code points below 256. *)

Definition dquote : ascii := ascii_of_nat 34.
Definition backslash : ascii := ascii_of_nat 92.

Definition hex_digit (n : N) : ascii :=
  if (n <? 10)%N then ascii_of_N (48 + n) else ascii_of_N (87 + n).

(** [str.isprintable] on one character: not a control character, not
    the no-break space and not the soft hyphen. *)
Definition isprintable (c : ascii) : bool :=
  let n := N_of_ascii c in
  ((32 <=? n) && (n <? 127) || (161 <=? n) && negb (n =? 173))%N.

(** One character inside the quotes of [repr]. *)
Definition repr_char (quote c : ascii) : string :=
  let n := N_of_ascii c in
  if Ascii.eqb c quote || Ascii.eqb c backslash then String backslash (String c "")
  else if (n =? 9)%N then String backslash "t"
  else if (n =? 10)%N then String backslash "n"
  else if (n =? 13)%N then String backslash "r"
  else if isprintable c then String c ""
  else String backslash
         (String "x" (String (hex_digit (n / 16)) (String (hex_digit (n mod 16)) ""))).

(** [repr(s)]: in double quotes when [s] has a single quote and no double
    quote, in single quotes otherwise. *)
Definition repr (s : string) : string :=
  let cs := list_ascii_of_string s in
  let quote :=
    if existsb (Ascii.eqb "'") cs && negb (existsb (Ascii.eqb dquote) cs)
    then dquote else "'"%char in
  String quote (String.concat "" (map (repr_char quote) cs) ++ String quote "").

(** ** What the module imports: yubikit, ykman, smartcard, pyotherside *)

Inductive USB_INTERFACE := OTP | FIDO | CCID.

Inductive TRANSPORT := USB | NFC.

Definition conn := nat.
Definition session := nat.

(** [get_pivman_data(session)] *)
Record PivmanData := mkPivman {
  has_protected_key : bool;
  has_derived_key : bool;
  has_stored_key : bool;
  puk_blocked : bool
}.

(** The [info] of [connect_to_device()]: the fields [refresh] reads.
    [enabled_applications t] is [info.config.enabled_applications.get(t)]
    and [supported_applications t] is [info.supported_applications.get(t)]:
    [None] when the transport is not a key of the mapping. *)
Record DeviceInfo := mkInfo {
  version : option (Z * Z * Z);
  serial : option Z;
  enabled_applications : TRANSPORT -> option Z;
  supported_applications : TRANSPORT -> option Z;
  is_locked : bool;
  form_factor : Z
}.

(** The [device] of [connect_to_device()], known by its [pid]. *)
Record YkDevice := mkYkDevice { pid : Z }.

(** The third argument of [write_device_config]: the [lock_code] parameter
    as the caller gave it ([None] or a str) or the bytes decoded from it. *)
Inductive lock_arg :=
| LockNone
| LockStr (s : string)
| LockBytes (b : bytes).

(** Constants and pure helpers of the libraries, whose values are not part
    of this module. *)
Class Yubikit := {
  (** the members of the IntFlag [APPLICATION], in definition order *)
  APPLICATION : list (string * Z);
  (** the value of a member of the IntFlag [USB_INTERFACE] *)
  usb_interface_value : USB_INTERFACE -> Z;
  (** [get_name(info, pid.get_type())] *)
  get_name : DeviceInfo -> Z -> string;
  (** [pid.get_interfaces()] *)
  pid_get_interfaces : Z -> Z;
  (** [str(Mode.from_pid(pid))] *)
  mode_from_pid : Z -> string;
  SW_VERIFY_FAIL_NO_RETRY : Z;
  SW_INCORRECT_PARAMETERS : Z
}.

(** The calls that leave the module, indexed by what they return. *)
Inductive Call : Type -> Type :=
| scan_devices : Call (list (Z * nat) * Z)
| connect_to_device (connection_types : option (list USB_INTERFACE)) :
    Call (conn * YkDevice * DeviceInfo)
| connection_close (c : conn) : Call unit
| PivSession (c : conn) : Call session
| get_pivman_data (s : session) : Call PivmanData
| verify_pin (s : session) (pin : string) : Call unit
| authenticate (s : session) (key : bytes) : Call unit
| get_pin_attempts (s : session) : Call Z
| change_pin (s : session) (old_pin new_pin : string) : Call unit
| ManagementSession (c : conn) : Call session
| write_device_config (s : session) (usb nfc : Z) (reboot : bool)
    (cur_lock_code : lock_arg) : Call unit
| YubiOtpSession (c : conn) : Call session
| YubiOtpSlotConfiguration (public_id private_id key : bytes) : Call unit
| put_configuration (s : session) (slot : Z)
    (public_id private_id key : bytes) : Call unit
| modhex_decode (s : string) : Call bytes
| prepare_upload_key (key public_id private_id : bytes) (serial : value)
    (user_agent : string) : Call string
| pyotherside_send (event : string) : Call unit.

Inductive Event := Ev : forall R : Type, Call R -> Event.

Arguments Ev {R} c.

(** Whatever is on the other side: each call is answered with a value or
    an exception and may change the other side's state. *)
Class Device (D : Type) := {
  respond : forall R : Type, Call R -> D -> outcome R * D
}.

Arguments respond {D _ R} c d.

(** ** The state the module runs in, and its monad *)

(** [_state] and [_dev_info] are the attributes of the one [Controller]. *)
Record World (D : Type) := mkWorld {
  device : D;
  store : heap;
  trace : list Event;
  _state : option Z;
  _dev_info : option doc
}.

Arguments mkWorld {D}.
Arguments device {D}.
Arguments store {D}.
Arguments trace {D}.
Arguments _state {D}.
Arguments _dev_info {D}.

Definition M (D A : Type) : Type := World D -> outcome A * World D.

Definition ret {D A} (a : A) : M D A := fun w => (Ret a, w).

Definition raise {D A} (e : exn) : M D A := fun w => (Raise e, w).

Definition bind {D A B} (m : M D A) (k : A -> M D B) : M D B :=
  fun w =>
    match m w with
    | (Ret a, w') => k a w'
    | (Raise e, w') => (Raise e, w')
    end.

Declare Scope py_scope.
Delimit Scope py_scope with py.

Notation "x <- m ;; k" := (bind m (fun x => k))
  (at level 100, m at next level, right associativity) : py_scope.
Notation "' p <- m ;; k" := (bind m (fun x => match x with p => k end))
  (at level 100, p pattern, m at next level, right associativity) : py_scope.
Notation "m ;; k" := (bind m (fun _ => k))
  (at level 100, right associativity) : py_scope.

Local Open Scope py_scope.

(** A pure computation that may raise. *)
Definition lift {D A} (o : outcome A) : M D A := fun w => (o, w).

(** [try: m  except: h e] with a handler that sees every exception; a
    handler for one class re-raises the others. *)
Definition try_except {D A} (m : M D A) (h : exn -> M D A) : M D A :=
  fun w =>
    match m w with
    | (Ret a, w') => (Ret a, w')
    | (Raise e, w') => h e w'
    end.

(** [with cm: body], where [exit_] is what [cm.__exit__] does and its
    result is falsy: it runs on every way out of the body, and an
    exception of its own replaces the body's outcome. *)
Definition with_exit {D A} (exit_ : M D unit) (body : M D A) : M D A :=
  fun w =>
    match body w with
    | (o, w') =>
        match exit_ w' with
        | (Ret _, w'') => (o, w'')
        | (Raise e, w'') => (Raise e, w'')
        end
    end.

Section Controller.

Context {D : Type} {lib : Yubikit} {dev : Device D}.

Definition call {R} (c : Call R) : M D R :=
  fun w =>
    let (o, d) := respond c (device w) in
    (o, mkWorld d (store w) (trace w ++ [Ev c]) (_state w) (_dev_info w)).

Definition set_state (s : option Z) : M D unit :=
  fun w => (Ret tt, mkWorld (device w) (store w) (trace w) s (_dev_info w)).

Definition set_dev_info (i : option doc) : M D unit :=
  fun w => (Ret tt, mkWorld (device w) (store w) (trace w) (_state w) i).

Definition get_state : M D (option Z) := fun w => (Ret (_state w), w).

Definition get_dev_info : M D (option doc) := fun w => (Ret (_dev_info w), w).

(** A dict display [{...}] makes a new object. *)
Definition new_dict (d : doc) : M D loc :=
  fun w =>
    let (l, h) := heap_alloc (store w) d in
    (Ret l, mkWorld (device w) h (trace w) (_state w) (_dev_info w)).

(** [result[k] = v] *)
Definition setitem (l : loc) (k : string) (v : value) : M D unit :=
  fun w =>
    (Ret tt,
     mkWorld (device w) (heap_update (store w) l (dict_set k v))
       (trace w) (_state w) (_dev_info w)).

(** What a document holds in a given world; [json.dumps] in [as_json]
    reads it as soon as the wrapped method returns. *)
Definition deref (w : World D) (l : loc) : doc := heap_get (store w) l.

(** ** success, failure, unknown_failure *)

(** [def success(result={})]: [None] is the call without the argument,
    which gets the one default object. *)
Definition success (result : option loc) : M D loc :=
  let result := match result with Some l => l | None => SUCCESS_DEFAULT end in
  setitem result "success" (VBool true);;
  ret result.

(** [def failure(err_id, result={})] *)
Definition failure (err_id : value) (result : option loc) : M D loc :=
  let result := match result with Some l => l | None => FAILURE_DEFAULT end in
  setitem result "success" (VBool false);;
  setitem result "error_id" err_id;;
  ret result.

Definition unknown_failure (exception : exn) : M D loc :=
  r <- new_dict [("error_message", VStr (exn_str exception))];;
  failure VNone (Some r).

(** ** catch_error *)

(** The wrapper [catch_error(f)]; the two [logger.error] calls write to
    the log only.  Python tries the [except] clauses in order, and
    [except Exception] lets a [BaseException] that is no [Exception]
    through. *)
Definition catch_error (f : M D loc) : M D loc :=
  try_except f (fun e =>
    if isinstance e EstablishContextException then
      failure (VStr "pcsc_establish_context_failed") None
    else if isinstance e ValueError then
      failure (VStr "open_device_failed") None
    else if isinstance e Exception then
      if String.eqb (exn_str e) "Incorrect padding" then
        failure (VStr "incorrect_padding") None
      else unknown_failure e
    else raise e).

(** ** Controller *)

(** [sum(devices.values())] *)
Definition sum_values (devices : list (Z * nat)) : nat :=
  fold_right (fun p acc => (snd p + acc)%nat) 0%nat devices.

(** [state != self._state], where [self._state] is [None] or an int. *)
Definition state_ne (state : Z) (cached : option Z) : bool :=
  match cached with
  | None => true
  | Some s => negb (Z.eqb state s)
  end.

(** [a in flags] for IntFlag values. *)
Definition flag_in (a flags : Z) : bool := Z.eqb (Z.land a flags) a.

(** [[m.name for m in members if m in flags]] *)
Definition names_in (members : list (string * Z)) (flags : Z) : list value :=
  map (fun m => VStr (fst m)) (filter (fun m => flag_in (snd m) flags) members).

(** The same with [flags] the result of [mapping.get(key)]: [m in None]
    raises at the first member. *)
Definition names_in_get (members : list (string * Z)) (flags : option Z)
  : outcome (list value) :=
  match flags with
  | Some f => Ret (names_in members f)
  | None =>
      match members with
      | [] => Ret []
      | _ :: _ =>
          Raise (new_exn TypeError "argument of type 'NoneType' is not iterable")
      end
  end.

(** The same with [mapping.get(key, [])]: nothing is in the empty list. *)
Definition names_in_get_default (members : list (string * Z))
  (flags : option Z) : list value :=
  match flags with
  | Some f => names_in members f
  | None => []
  end.

Definition usb_interface_name (t : USB_INTERFACE) : string :=
  match t with OTP => "OTP" | FIDO => "FIDO" | CCID => "CCID" end.

Definition USB_INTERFACE_members : list (string * Z) :=
  map (fun t => (usb_interface_name t, usb_interface_value t)) [OTP; FIDO; CCID].

Definition str_of_int (z : Z) : string := NilZero.string_of_int (Z.to_int z).

(** ['.'.join(str(x) for x in info.version) if info.version else ""] *)
Definition version_str (v : option (Z * Z * Z)) : string :=
  match v with
  | Some (a, b, c) =>
      str_of_int a ++ "." ++ str_of_int b ++ "." ++ str_of_int c
  | None => ""
  end.

(** [info.version >= (5,0,0)]: tuples compare lexicographically. *)
Definition version_ge_5 (v : Z * Z * Z) : bool :=
  let '(a, b, c) := v in
  (5 <? a)%Z || ((a =? 5)%Z && ((0 <? b)%Z || ((b =? 0)%Z && (0 <=? c)%Z))).

(** [s.split(sep)] for a separator of one character. *)
Fixpoint split_on (sep : ascii) (s : string) : list string :=
  match s with
  | EmptyString => [EmptyString]
  | String c r =>
      if Ascii.eqb c sep then EmptyString :: split_on sep r
      else match split_on sep r with
           | [] => [String c EmptyString]
           | h :: t => String c h :: t
           end
  end.

(** The dict display assigned to [self._dev_info] in [refresh]. *)
Definition build_dev_info (device : YkDevice) (info : DeviceInfo)
  : outcome doc :=
  match names_in_get APPLICATION (enabled_applications info USB) with
  | Raise e => Raise e
  | Ret usb_enabled =>
  match names_in_get APPLICATION (supported_applications info USB) with
  | Raise e => Raise e
  | Ret usb_supported =>
      Ret [ ("name", VStr (get_name info (pid device)));
            ("version", VStr (version_str (version info)));
            ("serial", match serial info with
                       | Some 0%Z | None => VStr ""
                       | Some n => VInt n
                       end);
            ("usb_enabled", VList usb_enabled);
            ("usb_supported", VList usb_supported);
            ("usb_interfaces_supported",
              VList (names_in USB_INTERFACE_members
                       (pid_get_interfaces (pid device))));
            ("nfc_enabled",
              VList (names_in_get_default APPLICATION
                       (enabled_applications info NFC)));
            ("nfc_supported",
              VList (names_in_get_default APPLICATION
                       (supported_applications info NFC)));
            ("usb_interfaces_enabled",
              VList (map VStr (split_on "+"%char (mode_from_pid (pid device)))));
            ("can_write_config", match version info with
                                 | Some v => VBool (version_ge_5 v)
                                 | None => VNone
                                 end);
            ("configuration_locked", VBool (is_locked info));
            ("form_factor", VInt (form_factor info)) ]
  end end.

Definition opt_dict (d : option doc) : value :=
  match d with Some d => VDict d | None => VNone end.

Definition refresh : M D loc :=
  '(devices, state) <- call scan_devices;;
  let n_devs := sum_values devices in
  if negb (n_devs =? 1)%nat then failure (VStr "multiple_devices") None
  else
    cached <- get_state;;
    returned <-
      (if state_ne state cached then
         set_state (Some state);;
         connected <-
           try_except
             ('(connection, device, info) <- call (connect_to_device None);;
              call (connection_close connection);;
              ret (Some (device, info)))
             (fun _ => set_state None;; set_dev_info None;; ret None);;
         match connected with
         | None => l <- failure (VStr "no_device") None;; ret (Some l)
         | Some (device, info) =>
             d <- lift (build_dev_info device info);;
             set_dev_info (Some d);;
             ret None
         end
       else ret None);;
    match returned with
    | Some l => ret l
    | None =>
        info <- get_dev_info;;
        d <- new_dict [("dev", opt_dict info)];;
        success (Some d)
    end.

(** [USB_INTERFACE(sum(USB_INTERFACE))], the default of [_open_device] *)
Definition ALL_INTERFACES : list USB_INTERFACE := [OTP; FIDO; CCID].

Definition _open_device (interfaces : list USB_INTERFACE) : M D conn :=
  '(connection, _, _) <- call (connect_to_device (Some interfaces));;
  ret connection.

(** [with self._open_device(interfaces) as conn: body conn] *)
Definition with_open_device {A} (interfaces : list USB_INTERFACE)
  (body : conn -> M D A) : M D A :=
  conn <- _open_device interfaces;;
  with_exit (call (connection_close conn)) (body conn).

Fixpoint dict_lookup (k : string) (t : list (string * Z)) : option Z :=
  match t with
  | [] => None
  | (k', v) :: r => if String.eqb k k' then Some v else dict_lookup k r
  end.

(** [for app in apps: enabled |= APPLICATION[app]]; the text of the
    [KeyError] of a name that is no member is the [repr] of the name. *)
Fixpoint enabled_mask (apps : list string) (enabled : Z) : outcome Z :=
  match apps with
  | [] => Ret enabled
  | app :: r =>
      match dict_lookup app APPLICATION with
      | Some v => enabled_mask r (Z.lor enabled v)
      | None => Raise (new_exn KeyError (repr app))
      end
  end.

(** Truth value of an optional str: [None] and [''] are false. *)
Definition truthy (s : option string) : option string :=
  match s with
  | Some "" => None
  | Some s => Some s
  | None => None
  end.

Definition write_config (usb_applications nfc_applications : list string)
  (lock_code : option string) : M D loc :=
  usb_enabled <- lift (enabled_mask usb_applications 0%Z);;
  nfc_enabled <- lift (enabled_mask nfc_applications 0%Z);;
  with_open_device ALL_INTERFACES (fun conn =>
    checked <-
      match truthy lock_code with
      | Some s =>
          b <- lift (a2b_hex s);;
          if negb (List.length b =? 16)%nat then
            l <- failure (VStr "lock_code_not_16_bytes") None;; ret (inl l)
          else ret (inr (LockBytes b))
      | None =>
          ret (inr match lock_code with
                   | Some s => LockStr s
                   | None => LockNone
                   end)
      end;;
    match checked with
    | inl l => ret l
    | inr lock_code =>
        returned <-
          try_except
            (session <- call (ManagementSession conn);;
             call (write_device_config session usb_enabled nfc_enabled true
                     lock_code);;
             set_state None;;
             ret None)
            (fun e =>
               if isinstance e ApduError then
                 if Z.eqb (exn_sw e) SW_VERIFY_FAIL_NO_RETRY then
                   l <- failure (VStr "wrong_lock_code") None;; ret (Some l)
                 else raise e
               else if isinstance e ValueError then
                 if String.eqb (exn_str e) "Configuration locked!" then
                   l <- failure (VStr "interface_config_locked") None;;
                   ret (Some l)
                 else raise e
               else raise e);;
        match returned with
        | Some l => ret l
        | None => success None
        end
    end).

(** [self._dev_info['serial']] *)
Definition dev_info_serial : M D value :=
  info <- get_dev_info;;
  match info with
  | None => raise (new_exn TypeError "'NoneType' object is not subscriptable")
  | Some d =>
      match dict_get d "serial" with
      | Some v => ret v
      | None => raise (new_exn KeyError "'serial'")
      end
  end.

Definition program_otp (slot : Z) (public_id private_id key : string)
  (upload : bool) (app_version : string) : M D loc :=
  key <- lift (a2b_hex key);;
  public_id <- call (modhex_decode public_id);;
  private_id <- lift (a2b_hex private_id);;
  r <- with_open_device [OTP] (fun conn =>
    uploaded <-
      (if upload then
         try_except
           (serial <- dev_info_serial;;
            url <- call (prepare_upload_key key public_id private_id serial
                           ("ykman-qt/" ++ app_version));;
            ret (inr (Some url)))
           (fun e =>
              if isinstance e PrepareUploadFailed then
                d <- new_dict [("upload_errors", VList (map VStr (exn_errors e)))];;
                l <- failure (VStr "upload_failed") (Some d);;
                ret (inl l)
              else raise e)
       else ret (inr None));;
    match uploaded with
    | inl l => ret (inl l)
    | inr upload_url =>
        written <-
          try_except
            (session <- call (YubiOtpSession conn);;
             call (YubiOtpSlotConfiguration public_id private_id key);;
             call (put_configuration session slot public_id private_id key);;
             ret None)
            (fun e =>
               if isinstance e CommandError then
                 l <- failure (VStr "write error") None;; ret (Some l)
               else raise e);;
        match written with
        | Some l => ret (inl l)
        | None => ret (inr upload_url)
        end
    end);;
  match r with
  | inl l => ret l
  | inr upload_url =>
      d <- new_dict [("upload_url", match upload_url with
                                    | Some u => VStr u
                                    | None => VNone
                                    end)];;
      success (Some d)
  end.

(** The result is [None] (nothing failed) or a failure document. *)
Definition _piv_verify_pin (session : session) (pin : option string)
  : M D (option loc) :=
  match truthy pin with
  | Some pin =>
      try_except (call (verify_pin session pin)) (fun _ => ret tt);;
      ret None
  | None =>
      l <- failure (VStr "pin_required") None;; ret (Some l)
  end.

Definition _piv_ensure_authenticated (session : session)
  (pin mgm_key_hex : option string) : M D (option loc) :=
  pivman <- call (get_pivman_data session);;
  if has_protected_key pivman then _piv_verify_pin session pin
  else
    match truthy mgm_key_hex with
    | Some mgm_key_hex =>
        if negb (String.length mgm_key_hex =? 48)%nat then
          l <- failure (VStr "mgm_key_bad_format") None;; ret (Some l)
        else
          decoded <-
            try_except
              (b <- lift (a2b_hex mgm_key_hex);; ret (Some b))
              (fun e => if isinstance e Exception then ret None else raise e);;
          match decoded with
          | None =>
              l <- failure (VStr "mgm_key_bad_format") None;; ret (Some l)
          | Some mgm_key_bytes =>
              try_except (call (authenticate session mgm_key_bytes))
                (fun _ => ret tt);;
              ret None
          end
    | None =>
        l <- failure (VStr "mgm_key_required") None;; ret (Some l)
    end.

Definition piv_change_pin (old_pin new_pin : string) : M D loc :=
  with_open_device ALL_INTERFACES (fun conn =>
    session <- call (PivSession conn);;
    try_except
      (call (change_pin session old_pin new_pin);;
       success None)
      (fun e =>
         if isinstance e InvalidPinError then
           tries_left <- call (get_pin_attempts session);;
           d <- new_dict [("tries_left", VInt tries_left)];;
           failure (VStr "wrong_pin") (Some d)
         else if isinstance e ApduError then
           if Z.eqb (exn_sw e) SW_INCORRECT_PARAMETERS then
             failure (VStr "incorrect_parameters") None
           else
             tries_left <- call (get_pin_attempts session);;
             new_dict [("success", VBool false); ("tries_left", VInt tries_left)]
         else raise e)).

End Controller.

(** The world right after [import yubikey; yubikey.init()]. *)
Definition module_world {D : Type} (d : D) : World D :=
  mkWorld d module_heap [] None None.

(** A result document reports the failure [err_id]. *)
Definition fails_with {D : Type} (w : World D) (l : loc) (err_id : string)
  : Prop :=
  dict_get (deref w l) "success" = Some (VBool false) /\
  dict_get (deref w l) "error_id" = Some (VStr err_id).

(** The world after [failure(err_id)] in [w]: the two keys are written
    into the default document of [failure]. *)
Definition after_failure {D : Type} (err_id : value) (w : World D) : World D :=
  mkWorld (device w)
    (mkHeap (success_default (store w))
       (dict_set "error_id" err_id
          (dict_set "success" (VBool false) (failure_default (store w))))
       (objects (store w)))
    (trace w) (_state w) (_dev_info w).

(** The default dict of [failure] as the module itself leaves it: empty
    until the first call without the argument, the two keys of [failure]
    afterwards. *)
Definition failure_default_clean (h : heap) : Prop :=
  failure_default h = [] \/
  exists b e, failure_default h = [("success", b); ("error_id", e)].

(** A management key as [_piv_ensure_authenticated] wants it: 48
    hexadecimal digits. *)
Definition well_formed_mgm_key (k : string) : bool :=
  (String.length k =? 48)%nat && forallb is_hex_digit (list_ascii_of_string k).

Definition is_authenticate (e : Event) : bool :=
  match e with
  | Ev (authenticate _ _) => true
  | _ => false
  end.

Definition is_write_device_config (e : Event) : bool :=
  match e with
  | Ev (write_device_config _ _ _ _ _) => true
  | _ => false
  end.

Definition is_connect (e : Event) : bool :=
  match e with
  | Ev (connect_to_device _) => true
  | _ => false
  end.

(** ** A simulated key, to run the module on concrete inputs *)

Module Sim.

Record Key := mkKey {
  detected : list (Z * nat);
  fingerprint : Z;
  busy_for : nat;
  protected_key : bool;
  key_pin : string;
  pin_tries : Z;
  mgm_key : bytes;
  writes : nat
}.

Definition bytes_eqb (a b : bytes) : bool :=
  (List.length a =? List.length b)%nat &&
  forallb (fun p => Byte.eqb (fst p) (snd p)) (combine a b).

Definition the_info : DeviceInfo :=
  mkInfo (Some (5, 2, 4)%Z) (Some 7654321%Z)
    (fun t => match t with USB => Some 0x23B%Z | NFC => None end)
    (fun t => match t with USB => Some 0x23B%Z | NFC => None end)
    false 1%Z.

Definition invalid_pin : exn := new_exn InvalidPinError "Invalid PIN".

Definition security_condition_not_satisfied : exn :=
  mkExn ApduError "APDU error: SW=0x6982" 0x6982%Z [].

Definition no_key : exn := new_exn ValueError "Failed to connect to YubiKey".

Definition with_tries (k : Key) (n : Z) : Key :=
  mkKey (detected k) (fingerprint k) (busy_for k) (protected_key k)
    (key_pin k) n (mgm_key k) (writes k).

Definition with_pin (k : Key) (p : string) : Key :=
  mkKey (detected k) (fingerprint k) (busy_for k) (protected_key k)
    p 3%Z (mgm_key k) (writes k).

Definition written (k : Key) : Key :=
  mkKey (detected k) (fingerprint k + 1)%Z (busy_for k) (protected_key k)
    (key_pin k) (pin_tries k) (mgm_key k) (S (writes k)).

Definition waited (k : Key) (n : nat) : Key :=
  mkKey (detected k) (fingerprint k) n (protected_key k)
    (key_pin k) (pin_tries k) (mgm_key k) (writes k).

Definition check_pin (k : Key) (p : string) (ok : Key) : outcome unit * Key :=
  if (0 <? pin_tries k)%Z && String.eqb p (key_pin k) then (Ret tt, ok)
  else (Raise invalid_pin, with_tries k (Z.max 0 (pin_tries k - 1))).

Definition answer (R : Type) (c : Call R) (k : Key) : outcome R * Key :=
  match c in Call R return outcome R * Key with
  | scan_devices => (Ret (detected k, fingerprint k), k)
  | connect_to_device _ =>
      match busy_for k with
      | O => (Ret (0%nat, mkYkDevice 0x0407%Z, the_info), k)
      | S n => (Raise no_key, waited k n)
      end
  | connection_close _ => (Ret tt, k)
  | PivSession _ => (Ret 0%nat, k)
  | get_pivman_data _ =>
      (Ret (mkPivman (protected_key k) false false false), k)
  | verify_pin _ p => check_pin k p (with_tries k 3%Z)
  | authenticate _ key =>
      if bytes_eqb key (mgm_key k) then (Ret tt, k)
      else (Raise security_condition_not_satisfied, k)
  | get_pin_attempts _ => (Ret (pin_tries k), k)
  | change_pin _ old_pin new_pin => check_pin k old_pin (with_pin k new_pin)
  | ManagementSession _ => (Ret 0%nat, k)
  | write_device_config _ _ _ _ _ => (Ret tt, written k)
  | YubiOtpSession _ => (Ret 0%nat, k)
  | YubiOtpSlotConfiguration _ _ _ => (Ret tt, k)
  | put_configuration _ _ _ _ _ => (Ret tt, written k)
  | modhex_decode _ => (Ret [], k)
  | prepare_upload_key _ _ _ _ _ => (Ret "https://upload.yubico.com/", k)
  | pyotherside_send _ => (Ret tt, k)
  end.

#[global] Instance key_device : Device Key := {| respond := answer |}.

#[global] Instance yubikit : Yubikit := {|
  APPLICATION := [("OTP", 0x01); ("U2F", 0x02); ("OPENPGP", 0x08);
                  ("PIV", 0x10); ("OATH", 0x20); ("FIDO2", 0x200)]%Z;
  usb_interface_value := fun t =>
    match t with OTP => 0x01 | FIDO => 0x02 | CCID => 0x04 end%Z;
  get_name := fun _ _ => "YubiKey 5 NFC";
  pid_get_interfaces := fun _ => 0x07%Z;
  mode_from_pid := fun _ => "OTP+FIDO+CCID";
  SW_VERIFY_FAIL_NO_RETRY := 0x63C0%Z;
  SW_INCORRECT_PARAMETERS := 0x6A80%Z
|}.

Definition zeros (n : nat) : bytes := repeat x00 n.

(** One key plugged in and free, PIN 123456 with three tries left, the management
    key 24 zero bytes. *)
Definition key : Key :=
  mkKey [(0x0407%Z, 1%nat)] 11%Z 0 false "123456" 3%Z (zeros 24) 0.

(** 48 hexadecimal digits that are not the management key of [key]. *)
Definition ones48 : string := "111111111111111111111111111111111111111111111111".

Definition protected (k : Key) : Key :=
  mkKey (detected k) (fingerprint k) (busy_for k) true
    (key_pin k) (pin_tries k) (mgm_key k) (writes k).

Definition unplugged : Key :=
  mkKey [] 0%Z 1 false "123456" 3%Z (zeros 24) 0.

(** The next connection attempt fails (another program holds the key),
    the one after it goes through. *)
Definition busy (k : Key) : Key := waited k 1.

End Sim.

(** ** More of the Controller *)

(** A result document reports success. *)
Definition reports_success {D : Type} (w : World D) (l : loc) : Prop :=
  dict_get (deref w l) "success" = Some (VBool true).

(** The default dict of [success] as the module itself leaves it. *)
Definition success_default_clean (h : heap) : Prop :=
  success_default h = [] \/ success_default h = [("success", VBool true)].

Definition defaults_clean (h : heap) : Prop :=
  failure_default_clean h /\ success_default_clean h.

(** A computation that leaves the two default documents clean. *)
Definition keeps_defaults {D A : Type} (m : M D A) : Prop :=
  forall w, defaults_clean (store w) -> defaults_clean (store (snd (m w))).

(** [post m w Q]: running [m] in [w] ends in an outcome and a world that
    satisfy [Q]. *)
Definition post {D A : Type} (m : M D A) (w : World D)
  (Q : outcome A -> World D -> Prop) : Prop :=
  Q (fst (m w)) (snd (m w)).

(** The world after a call that has been answered with the state [d]. *)
Definition called {D R : Type} (c : Call R) (d : D) (w : World D) : World D :=
  mkWorld d (store w) (trace w ++ [Ev c]) (_state w) (_dev_info w).

Section MoreController.

Context {D : Type} {lib : Yubikit} {dev : Device D}.

Definition count_devices : M D nat :=
  '(devices, state) <- call scan_devices;;
  ret (sum_values devices).

(** The calls of a [write_config] that goes through: the connection is
    opened, the session made, the configuration written with the masks of
    the two lists and with no lock code or one of 16 bytes, and the
    connection closed, each of them answered without an exception. *)
Definition written_through
  (usb_applications nfc_applications : list string) (lock_code : option string)
  (w w1 : World D) : Prop :=
  exists usb_enabled nfc_enabled lock c device0 info s d1 d2 d3,
    enabled_mask usb_applications 0%Z = Ret usb_enabled /\
    enabled_mask nfc_applications 0%Z = Ret nfc_enabled /\
    (truthy lock_code = None /\
     lock = match lock_code with Some x => LockStr x | None => LockNone end \/
     exists x b, truthy lock_code = Some x /\ a2b_hex x = Ret b /\
                 List.length b = 16%nat /\ lock = LockBytes b) /\
    respond (connect_to_device (Some ALL_INTERFACES)) (device w)
    = (Ret (c, device0, info), d1) /\
    respond (ManagementSession c) d1 = (Ret s, d2) /\
    respond (write_device_config s usb_enabled nfc_enabled true lock) d2
    = (Ret tt, d3) /\
    respond (connection_close c) d3 = (Ret tt, device w1) /\
    trace w1 = trace w ++ [Ev (connect_to_device (Some ALL_INTERFACES));
                           Ev (ManagementSession c);
                           Ev (write_device_config s usb_enabled nfc_enabled true lock);
                           Ev (connection_close c)].

End MoreController.

(** ** A simulated key with answers fixed in advance *)

Module Rig.

(** The key of [Sim], except that the calls for which [fixed] has an
    answer get that answer and leave the key as it is. *)
Record Key := mkKey {
  key : Sim.Key;
  fixed : forall R : Type, Call R -> option (outcome R)
}.

Definition answer (R : Type) (c : Call R) (k : Key) : outcome R * Key :=
  match fixed k R c with
  | Some o => (o, k)
  | None => let (o, k') := Sim.answer R c (key k) in (o, mkKey k' (fixed k))
  end.

#[global] Instance device : Device Key := {| respond := answer |}.

Definition write_refused (e : exn) (R : Type) (c : Call R) : option (outcome R) :=
  match c in Call R return option (outcome R) with
  | write_device_config _ _ _ _ _ => Some (Raise e)
  | _ => None
  end.

Definition change_pin_refused (e : exn) (R : Type) (c : Call R)
  : option (outcome R) :=
  match c in Call R return option (outcome R) with
  | change_pin _ _ _ => Some (Raise e)
  | _ => None
  end.

Definition upload_refused (e : exn) (R : Type) (c : Call R)
  : option (outcome R) :=
  match c in Call R return option (outcome R) with
  | prepare_upload_key _ _ _ _ _ => Some (Raise e)
  | _ => None
  end.

Definition configuration_refused (e : exn) (R : Type) (c : Call R)
  : option (outcome R) :=
  match c in Call R return option (outcome R) with
  | put_configuration _ _ _ _ _ => Some (Raise e)
  | _ => None
  end.

Definition close_fails (e : exn) (R : Type) (c : Call R) : option (outcome R) :=
  match c in Call R return option (outcome R) with
  | connection_close _ => Some (Raise e)
  | _ => None
  end.

(** A device whose information has no entry for the USB transport. *)
Definition info_without_usb : DeviceInfo :=
  mkInfo (Some (5, 2, 4)%Z) (Some 7654321%Z) (fun _ => None) (fun _ => None)
    false 1%Z.

Definition no_usb_entry (R : Type) (c : Call R) : option (outcome R) :=
  match c in Call R return option (outcome R) with
  | connect_to_device _ =>
      Some (Ret (0%nat, mkYkDevice 0x0407%Z, info_without_usb))
  | _ => None
  end.

Definition verify_fail_no_retry : exn :=
  mkExn ApduError "APDU error: SW=0x63C0" 0x63C0%Z [].

Definition configuration_locked : exn :=
  new_exn ValueError "Configuration locked!".

Definition incorrect_parameters : exn :=
  mkExn ApduError "APDU error: SW=0x6A80" 0x6A80%Z [].

Definition upload_failed : exn :=
  mkExn PrepareUploadFailed "Upload to YubiCloud failed" 0%Z
    ["PRIVATE_ID_INVALID_LENGTH"; "SERIAL_NOT_INT"].

(** A lock code of 16 zero bytes. *)
Definition zeros32 : string := "00000000000000000000000000000000".

Definition no_response : exn := new_exn CommandError "No response".

(** A world in which [refresh] has filled the cache for the key of [Sim]. *)
Definition refreshed (fixed : forall R : Type, Call R -> option (outcome R))
  : World Key :=
  mkWorld (mkKey Sim.key fixed) module_heap [] (Some 11%Z)
    (Some [("name", VStr "YubiKey 5 NFC"); ("serial", VInt 7654321)]).

End Rig.

(** ** as_json: what the caller of a public method receives *)

(** One character of a str in [json.dumps] with [ensure_ascii]: the
    quote and the backslash get a backslash, the control characters with a
    short form get it, and every other character outside of the range from
    the space to the tilde is written [\u00xx]. *)
Definition json_char (c : ascii) : string :=
  let n := N_of_ascii c in
  if (n =? 34)%N then String backslash (String dquote "")
  else if (n =? 92)%N then String backslash (String backslash "")
  else if (n =? 10)%N then String backslash "n"
  else if (n =? 13)%N then String backslash "r"
  else if (n =? 9)%N then String backslash "t"
  else if (n =? 8)%N then String backslash "b"
  else if (n =? 12)%N then String backslash "f"
  else if ((32 <=? n) && (n <=? 126))%N then String c ""
  else String backslash
         ("u00" ++ String (hex_digit (n / 16)) (String (hex_digit (n mod 16)) "")).

Fixpoint json_chars (s : string) : string :=
  match s with
  | EmptyString => ""
  | String c r => json_char c ++ json_chars r
  end.

Definition json_string (s : string) : string :=
  String dquote (json_chars s ++ String dquote "").

(** [sep.join(parts)] *)
Fixpoint join (sep : string) (parts : list string) : string :=
  match parts with
  | [] => ""
  | [p] => p
  | p :: r => p ++ sep ++ join sep r
  end.

(** [json.dumps(v)] with the default separators. *)
Fixpoint dumps (v : value) : string :=
  match v with
  | VNone => "null"
  | VBool true => "true"
  | VBool false => "false"
  | VInt z => NilZero.string_of_int (Z.to_int z)
  | VStr s => json_string s
  | VList l => "[" ++ join ", " (map dumps l) ++ "]"
  | VDict d =>
      "{" ++ join ", " (map (fun kv : string * value =>
                               let (k, v) := kv in
                               (json_string k ++ ": " ++ dumps v)%string) d) ++ "}"
  end.

(** [as_json(f)] for a method that returns a document: the document is
    written out as it is when the method returns. *)
Definition as_json {D : Type} (f : M D loc) : M D string :=
  fun w =>
    match f w with
    | (Ret l, w') => (Ret (dumps (VDict (deref w' l))), w')
    | (Raise e, w') => (Raise e, w')
    end.

(** What [Controller.__init__] puts in place of every public method. *)
Definition public {D : Type} (f : M D loc) : M D string :=
  as_json (catch_error f).

(** ** b2a_hex *)

Definition hex_of_byte (b : byte) : string :=
  let n := N_of_ascii (ascii_of_byte b) in
  String (hex_digit (n / 16)) (String (hex_digit (n mod 16)) "").

(** [b2a_hex(data).decode('ascii')] *)
Fixpoint b2a_hex (data : bytes) : string :=
  match data with
  | [] => ""
  | b :: r => hex_of_byte b ++ b2a_hex r
  end.

(** ** _piv_serialise_cert *)









(** * Properties *)

(** ** Dictionaries and the two default documents *)

Lemma dict_get_set_same (k : string) (v : value) (d : doc) :
  dict_get (dict_set k v d) k = Some v.
Proof.
  induction d as [|[k' v'] r IH]; simpl.
  - now rewrite String.eqb_refl.
  - destruct (String.eqb k k') eqn:E; simpl; rewrite ?String.eqb_refl; auto.
    now rewrite E.
Qed.

Lemma dict_get_set_other (k k' : string) (v : value) (d : doc) :
  k <> k' -> dict_get (dict_set k v d) k' = dict_get d k'.
Proof.
  intros Hne.
  induction d as [|[k0 v0] r IH]; simpl.
  - destruct (String.eqb k' k) eqn:E; auto.
    apply String.eqb_eq in E. congruence.
  - destruct (String.eqb k k0) eqn:E; simpl.
    + apply String.eqb_eq in E. subst k0.
      destruct (String.eqb k' k) eqn:E'; auto.
      apply String.eqb_eq in E'. congruence.
    + destruct (String.eqb k' k0); auto.
Qed.

Lemma failure_doc_reports (err_id : value) (d : doc) :
  let d' := dict_set "error_id" err_id (dict_set "success" (VBool false) d) in
  dict_get d' "success" = Some (VBool false) /\
  dict_get d' "error_id" = Some err_id.
Proof.
  simpl. split.
  - rewrite dict_get_set_other by discriminate. apply dict_get_set_same.
  - apply dict_get_set_same.
Qed.

Lemma failure_doc_clean (err_id : value) (h : heap) :
  failure_default_clean h ->
  dict_set "error_id" err_id (dict_set "success" (VBool false) (failure_default h))
  = [("success", VBool false); ("error_id", err_id)].
Proof.
  intros [E | (b & e & E)]; rewrite E; reflexivity.
Qed.

Section Facts.

Context {D : Type} {lib : Yubikit} {dev : Device D}.

Lemma failure_default_run (err_id : value) (w : World D) :
  failure err_id None w = (Ret FAILURE_DEFAULT, after_failure err_id w).
Proof. reflexivity. Qed.

Lemma after_failure_fails_with (err : string) (w : World D) :
  fails_with (after_failure (VStr err) w) FAILURE_DEFAULT err.
Proof.
  unfold fails_with, deref, after_failure; simpl heap_get.
  apply (failure_doc_reports (VStr err)).
Qed.

Lemma call_run {R} (c : Call R) (w : World D) (o : outcome R) (d : D) :
  respond c (device w) = (o, d) ->
  call c w = (o, mkWorld d (store w) (trace w ++ [Ev c]) (_state w) (_dev_info w)).
Proof. intros H. unfold call. now rewrite H. Qed.

End Facts.

(** ** a2b_hex *)

Lemma list_pair_ind {A : Type} (P : list A -> Prop) :
  P [] -> (forall a, P [a]) -> (forall a b r, P r -> P (a :: b :: r)) ->
  forall l, P l.
Proof.
  intros H0 H1 H2.
  assert (H : forall l, P l /\ forall a, P (a :: l)).
  { induction l as [|x l [IH1 IH2]]; split; auto. }
  intro l. apply H.
Qed.

Lemma is_hex_digit_ascii (c : ascii) : is_hex_digit c = true -> is_ascii c = true.
Proof.
  destruct c as [[] [] [] [] [] [] [] []]; vm_compute; congruence.
Qed.

Lemma length_list_ascii (s : string) :
  List.length (list_ascii_of_string s) = String.length s.
Proof. induction s; simpl; congruence. Qed.

Lemma unhexlify_digits (cs : list ascii) :
  forallb is_hex_digit cs = true ->
  Nat.odd (List.length cs) = false ->
  exists bs, unhexlify cs = Some bs /\ List.length cs = (2 * List.length bs)%nat.
Proof.
  induction cs as [| a | a b r IH] using list_pair_ind; intros Hd Hl.
  - exists []. split; reflexivity.
  - discriminate.
  - cbn [forallb] in Hd.
    apply andb_prop in Hd as [Ha Hd]. apply andb_prop in Hd as [Hb Hd].
    destruct (IH Hd) as (bs & E & L).
    { change (List.length (a :: b :: r)) with (S (S (List.length r))) in Hl.
      now rewrite Nat.odd_succ_succ in Hl. }
    unfold is_hex_digit in Ha, Hb.
    cbn [unhexlify].
    destruct (hex_val a) as [hi|]; [|discriminate].
    destruct (hex_val b) as [lo|]; [|discriminate].
    rewrite E. eexists. split; [reflexivity|]. simpl. lia.
Qed.

Lemma unhexlify_only_digits (cs : list ascii) (bs : bytes) :
  unhexlify cs = Some bs ->
  forallb is_hex_digit cs = true /\ List.length cs = (2 * List.length bs)%nat.
Proof.
  revert bs.
  induction cs as [| a | a b r IH] using list_pair_ind; intros bs E.
  - injection E as <-. split; reflexivity.
  - discriminate.
  - cbn [unhexlify] in E. cbn [forallb]. unfold is_hex_digit at 1 2.
    destruct (hex_val a) as [hi|]; [|discriminate].
    destruct (hex_val b) as [lo|]; [|discriminate].
    destruct (unhexlify r) as [bs'|]; [|discriminate].
    injection E as <-.
    destruct (IH bs' eq_refl) as [Hd L]. rewrite Hd. split; [reflexivity|].
    simpl. lia.
Qed.

(** Every exception of [a2b_hex] is a [ValueError]. *)
Lemma a2b_hex_raises (s : string) (e : exn) :
  a2b_hex s = Raise e -> isinstance e ValueError = true.
Proof.
  unfold a2b_hex.
  destruct (negb _); [intros [= <-]; reflexivity|].
  destruct (Nat.odd _); [intros [= <-]; reflexivity|].
  destruct (unhexlify _); [discriminate|].
  intros [= <-]; reflexivity.
Qed.

Lemma a2b_hex_returns (s : string) (b : bytes) :
  a2b_hex s = Ret b ->
  forallb is_hex_digit (list_ascii_of_string s) = true /\
  String.length s = (2 * List.length b)%nat.
Proof.
  unfold a2b_hex.
  destruct (negb _); [discriminate|].
  destruct (Nat.odd _); [discriminate|].
  destruct (unhexlify _) as [bs|] eqn:E; [|discriminate].
  intros [= <-]. rewrite <- length_list_ascii. now apply unhexlify_only_digits.
Qed.

Lemma a2b_hex_digits (s : string) :
  forallb is_hex_digit (list_ascii_of_string s) = true ->
  Nat.odd (String.length s) = false ->
  exists b, a2b_hex s = Ret b /\ String.length s = (2 * List.length b)%nat.
Proof.
  intros Hd Hl. unfold a2b_hex.
  assert (Ha : forallb is_ascii (list_ascii_of_string s) = true).
  { rewrite forallb_forall in *. intros c Hc. apply is_hex_digit_ascii; auto. }
  rewrite Ha. cbn [negb].
  rewrite length_list_ascii, Hl.
  destruct (unhexlify_digits _ Hd) as (bs & E & L).
  { now rewrite length_list_ascii. }
  rewrite E. exists bs. split; [reflexivity|]. now rewrite <- length_list_ascii.
Qed.

Lemma a2b_hex_well_formed_mgm_key (k : string) :
  well_formed_mgm_key k = true ->
  exists b, a2b_hex k = Ret b /\ List.length b = 24%nat.
Proof.
  unfold well_formed_mgm_key. intros H.
  apply andb_prop in H as [Hl Hd]. apply Nat.eqb_eq in Hl.
  destruct (a2b_hex_digits k Hd) as (b & E & L).
  { now rewrite Hl. }
  exists b. split; [exact E | lia].
Qed.

Lemma truthy_some (s : string) : s <> "" -> truthy (Some s) = Some s.
Proof. destruct s; [congruence | reflexivity]. Qed.

Lemma isinstance_value_error_exception (e : exn) :
  isinstance e ValueError = true -> isinstance e Exception = true.
Proof. unfold isinstance. destruct (exn_type e); vm_compute; congruence. Qed.

Lemma isinstance_value_error_not_pcsc (e : exn) :
  isinstance e ValueError = true -> isinstance e EstablishContextException = false.
Proof. unfold isinstance. destruct (exn_type e); vm_compute; congruence. Qed.

Section Authorization.

Context {D : Type} {lib : Yubikit} {dev : Device D}.

Lemma piv_verify_pin_missing (s : session) (pin : option string) (w : World D) :
  truthy pin = None ->
  _piv_verify_pin s pin w
  = (Ret (Some FAILURE_DEFAULT), after_failure (VStr "pin_required") w).
Proof. intros E. unfold _piv_verify_pin. rewrite E. reflexivity. Qed.

(** Whatever the device answers to [verify_pin], [_piv_verify_pin] with a
    PIN returns [None]. *)
Lemma piv_verify_pin_swallows (s : session) (p : string) (w : World D)
  (o : outcome unit) (d : D) :
  p <> "" ->
  respond (verify_pin s p) (device w) = (o, d) ->
  _piv_verify_pin s (Some p) w
  = (Ret None,
     mkWorld d (store w) (trace w ++ [Ev (verify_pin s p)]) (_state w)
       (_dev_info w)).
Proof.
  intros Hp H. unfold _piv_verify_pin. rewrite (truthy_some p Hp).
  unfold bind, try_except. rewrite (call_run _ _ _ _ H).
  destruct o as [[]|e]; reflexivity.
Qed.

(** C2. [_piv_ensure_authenticated] on a device that reports protected-key
    mode, called without a PIN ([None] or the empty string), returns the
    failure document of [pin_required]; on a device that reports
    explicit-key mode, called without a management key, it returns the
    failure document of [mgm_key_required].  In both cases the only call
    to the device is [get_pivman_data]. *)
Theorem ensure_authenticated_credential_required
  (w : World D) (s : session) (pivman : PivmanData) (d : D)
  (pin mgm_key_hex : option string) :
  respond (get_pivman_data s) (device w) = (Ret pivman, d) ->
  (has_protected_key pivman = true -> truthy pin = None ->
   exists w',
     _piv_ensure_authenticated s pin mgm_key_hex w = (Ret (Some FAILURE_DEFAULT), w') /\
     fails_with w' FAILURE_DEFAULT "pin_required" /\
     trace w' = trace w ++ [Ev (get_pivman_data s)]) /\
  (has_protected_key pivman = false -> truthy mgm_key_hex = None ->
   exists w',
     _piv_ensure_authenticated s pin mgm_key_hex w = (Ret (Some FAILURE_DEFAULT), w') /\
     fails_with w' FAILURE_DEFAULT "mgm_key_required" /\
     trace w' = trace w ++ [Ev (get_pivman_data s)]).
Proof.
  intros H. split; intros Hmode Habsent.
  - unfold _piv_ensure_authenticated, bind.
    rewrite (call_run _ _ _ _ H), Hmode.
    rewrite piv_verify_pin_missing by exact Habsent.
    eexists. split; [reflexivity|]. split.
    + apply after_failure_fails_with.
    + reflexivity.
  - unfold _piv_ensure_authenticated, bind.
    rewrite (call_run _ _ _ _ H), Hmode, Habsent.
    rewrite failure_default_run.
    eexists. split; [reflexivity|]. split.
    + apply after_failure_fails_with.
    + reflexivity.
Qed.

(** C3. [_piv_ensure_authenticated] with a well-formed credential returns
    [None], which its callers take for success, whatever the device
    answers to the proof of authorization: in protected-key mode with a
    non-empty PIN, whatever [verify_pin] returns or raises; in explicit-key
    mode with 48 hexadecimal digits, whatever [authenticate] returns or
    raises on the 24 decoded bytes.  The trace shows that the call was
    made. *)
Theorem ensure_authenticated_swallows_rejection
  (w : World D) (s : session) (pivman : PivmanData) (d : D)
  (pin mgm_key_hex : option string) :
  respond (get_pivman_data s) (device w) = (Ret pivman, d) ->
  (has_protected_key pivman = true ->
   forall p, pin = Some p -> p <> "" ->
   forall (o : outcome unit) (d' : D),
     respond (verify_pin s p) d = (o, d') ->
     _piv_ensure_authenticated s pin mgm_key_hex w
     = (Ret None,
        mkWorld d' (store w)
          (trace w ++ [Ev (get_pivman_data s); Ev (verify_pin s p)])
          (_state w) (_dev_info w))) /\
  (has_protected_key pivman = false ->
   forall k, mgm_key_hex = Some k -> well_formed_mgm_key k = true ->
   exists b,
     a2b_hex k = Ret b /\ List.length b = 24%nat /\
     forall (o : outcome unit) (d' : D),
       respond (authenticate s b) d = (o, d') ->
       _piv_ensure_authenticated s pin mgm_key_hex w
       = (Ret None,
          mkWorld d' (store w)
            (trace w ++ [Ev (get_pivman_data s); Ev (authenticate s b)])
            (_state w) (_dev_info w))).
Proof.
  intros H. split; intros Hmode.
  - intros p -> Hp o d' Hv.
    unfold _piv_ensure_authenticated, bind.
    rewrite (call_run _ _ _ _ H), Hmode.
    match goal with
    | |- context [_piv_verify_pin s (Some p) ?w0] =>
        rewrite (piv_verify_pin_swallows s p w0 o d' Hp Hv)
    end.
    cbn.
    now rewrite <- app_assoc.
  - intros k -> Hk.
    destruct (a2b_hex_well_formed_mgm_key k Hk) as (b & Eb & Lb).
    exists b. split; [exact Eb|]. split; [exact Lb|].
    intros o d' Ha.
    assert (Hne : k <> "").
    { intros ->. discriminate Hk. }
    unfold well_formed_mgm_key in Hk. apply andb_prop in Hk as [Hl _].
    unfold _piv_ensure_authenticated, bind.
    rewrite (call_run _ _ _ _ H), Hmode, (truthy_some k Hne), Hl. cbn [negb].
    unfold try_except, bind, lift. rewrite Eb.
    unfold ret at 1.
    match goal with |- context [call ?c ?w0] => rewrite (call_run c w0 o d' Ha) end.
    cbn. rewrite <- app_assoc. destruct o as [[]|e]; reflexivity.
Qed.

(** C4, amended. In explicit-key mode, every non-empty management-key
    string that is not 48 hexadecimal digits makes
    [_piv_ensure_authenticated] return the failure document of
    [mgm_key_bad_format], and [get_pivman_data] is the only call to the
    device: [authenticate] is not called. *)
Theorem ensure_authenticated_mgm_key_bad_format
  (w : World D) (s : session) (pivman : PivmanData) (d : D)
  (pin : option string) (k : string) :
  respond (get_pivman_data s) (device w) = (Ret pivman, d) ->
  has_protected_key pivman = false ->
  k <> "" ->
  well_formed_mgm_key k = false ->
  exists w',
    _piv_ensure_authenticated s pin (Some k) w = (Ret (Some FAILURE_DEFAULT), w') /\
    fails_with w' FAILURE_DEFAULT "mgm_key_bad_format" /\
    trace w' = trace w ++ [Ev (get_pivman_data s)] /\
    existsb is_authenticate (trace w') = existsb is_authenticate (trace w) /\
    device w' = d.
Proof.
  intros H Hmode Hne Hbad.
  unfold _piv_ensure_authenticated, bind.
  rewrite (call_run _ _ _ _ H), Hmode, (truthy_some k Hne).
  assert (Hdone : forall w0 : World D,
            trace w0 = trace w ++ [Ev (get_pivman_data s)] -> device w0 = d ->
            exists w',
              (Ret (Some FAILURE_DEFAULT), after_failure (VStr "mgm_key_bad_format") w0)
              = (Ret (Some FAILURE_DEFAULT), w') /\
              fails_with w' FAILURE_DEFAULT "mgm_key_bad_format" /\
              trace w' = trace w ++ [Ev (get_pivman_data s)] /\
              existsb is_authenticate (trace w') = existsb is_authenticate (trace w) /\
              device w' = d).
  { intros w0 Ht Hd. eexists. split; [reflexivity|].
    split; [apply after_failure_fails_with|].
    split; [exact Ht|]. split; [|exact Hd].
    cbn [after_failure trace]. rewrite Ht, existsb_app. cbn. now rewrite orb_false_r. }
  destruct (String.length k =? 48)%nat eqn:Hl; cbn [negb].
  - unfold well_formed_mgm_key in Hbad. rewrite Hl in Hbad. cbn in Hbad.
    unfold try_except, bind, lift.
    destruct (a2b_hex k) as [b|e] eqn:Ea.
    + apply a2b_hex_returns in Ea as [Hd _]. congruence.
    + rewrite (isinstance_value_error_exception e (a2b_hex_raises k e Ea)).
      unfold ret at 1. rewrite failure_default_run. apply Hdone; reflexivity.
  - rewrite failure_default_run. apply Hdone; reflexivity.
Qed.

End Authorization.

Section Configuration.

Context {D : Type} {lib : Yubikit} {dev : Device D}.

(** C6, amended. When the number of devices found by the scan is not one
    (none, or several), [refresh] returns the failure document of
    [multiple_devices]; the scan is its only call to the outside, and
    [_state] and [_dev_info] are left as they were. *)
Theorem refresh_unless_one_device
  (w : World D) (devices : list (Z * nat)) (state : Z) (d : D) :
  respond scan_devices (device w) = (Ret (devices, state), d) ->
  sum_values devices <> 1%nat ->
  exists w',
    refresh w = (Ret FAILURE_DEFAULT, w') /\
    fails_with w' FAILURE_DEFAULT "multiple_devices" /\
    trace w' = trace w ++ [Ev scan_devices] /\
    _state w' = _state w /\
    _dev_info w' = _dev_info w.
Proof.
  intros H Hn.
  unfold refresh, bind. rewrite (call_run _ _ _ _ H).
  apply Nat.eqb_neq in Hn. rewrite Hn. cbn [negb].
  rewrite failure_default_run.
  eexists. split; [reflexivity|].
  split; [apply after_failure_fails_with|].
  repeat split.
Qed.

(** C5, amended. When the connection opens and closes normally, every
    non-empty lock code that [a2b_hex] decodes to a number of bytes other
    than 16 makes [write_config] return the failure document of
    [lock_code_not_16_bytes]; the calls to the outside are the opening and
    the closing of the connection, so no [ManagementSession] is made and
    [write_device_config] is not called, and [_state] is left as it was. *)
Theorem write_config_lock_code_length
  (w : World D) (usb_applications nfc_applications : list string)
  (usb_enabled nfc_enabled : Z) (lock_code : string) (b : bytes)
  (c : conn) (device0 : YkDevice) (info : DeviceInfo) (d1 d2 : D) :
  enabled_mask usb_applications 0%Z = Ret usb_enabled ->
  enabled_mask nfc_applications 0%Z = Ret nfc_enabled ->
  lock_code <> "" ->
  a2b_hex lock_code = Ret b ->
  List.length b <> 16%nat ->
  respond (connect_to_device (Some ALL_INTERFACES)) (device w)
  = (Ret (c, device0, info), d1) ->
  respond (connection_close c) d1 = (Ret tt, d2) ->
  exists w',
    write_config usb_applications nfc_applications (Some lock_code) w
    = (Ret FAILURE_DEFAULT, w') /\
    fails_with w' FAILURE_DEFAULT "lock_code_not_16_bytes" /\
    trace w' = trace w ++ [Ev (connect_to_device (Some ALL_INTERFACES));
                           Ev (connection_close c)] /\
    existsb is_write_device_config (trace w')
    = existsb is_write_device_config (trace w) /\
    _state w' = _state w /\
    device w' = d2.
Proof.
  intros Hu Hn Hne Hb Hl Ho Hc.
  unfold write_config, bind, lift. rewrite Hu, Hn.
  unfold with_open_device, _open_device, bind.
  rewrite (call_run _ _ _ _ Ho). cbn [ret].
  unfold with_exit, bind, lift.
  rewrite (truthy_some lock_code Hne), Hb.
  apply Nat.eqb_neq in Hl. rewrite Hl. cbn [negb].
  rewrite failure_default_run. unfold ret at 1 2.
  match goal with
  | |- context [call (connection_close c) ?w0] =>
      rewrite (call_run (connection_close c) w0 (Ret tt) d2 Hc)
  end.
  eexists. split; [reflexivity|].
  split; [apply (after_failure_fails_with "lock_code_not_16_bytes")|].
  cbn [trace _state device after_failure].
  split; [now rewrite <- app_assoc|].
  split; [|split; reflexivity].
  rewrite <- app_assoc, existsb_app. cbn. now rewrite orb_false_r.
Qed.

End Configuration.

Lemma nth_list_update_last (os : list doc) (d : doc) (f : doc -> doc) :
  nth (List.length os) (list_update (os ++ [d]) (List.length os) f) [] = f d.
Proof. induction os as [|x os IH]; simpl; auto. Qed.

Lemma dict_set_present (k : string) (v : value) (d : doc) :
  dict_get d k = Some v -> dict_set k v d = d.
Proof.
  induction d as [|[k' v'] r IH]; simpl; [discriminate|].
  destruct (String.eqb k k') eqn:E.
  - apply String.eqb_eq in E. subst k'. now intros [= ->].
  - intros H. now rewrite IH.
Qed.

(** Writing the same failure twice leaves the document as it is. *)
Lemma failure_doc_again (err_id : value) (d : doc) :
  let d' := dict_set "error_id" err_id (dict_set "success" (VBool false) d) in
  dict_set "error_id" err_id (dict_set "success" (VBool false) d') = d'.
Proof.
  intros d'. destruct (failure_doc_reports err_id d) as [Hs He].
  fold d' in Hs, He.
  rewrite (dict_set_present "success" (VBool false) d' Hs).
  now apply dict_set_present.
Qed.

Section Identity.

Context {D : Type} {lib : Yubikit} {dev : Device D}.

(** [success({...})]: the new document gets the key [success]. *)
Lemma success_new_dict (d0 : doc) (w : World D) :
  exists w',
    (d <- new_dict d0;; success (Some d)) w
    = (Ret (Obj (List.length (objects (store w)))), w') /\
    deref w' (Obj (List.length (objects (store w))))
    = dict_set "success" (VBool true) d0 /\
    trace w' = trace w /\ device w' = device w /\
    _state w' = _state w /\ _dev_info w' = _dev_info w.
Proof.
  eexists. split; [reflexivity|].
  split; [|repeat split].
  unfold deref. cbn. apply nth_list_update_last.
Qed.

(** What the first of two calls of [refresh] leaves behind when it
    returns: the failure of [multiple_devices], the failure of
    [no_device], or a success document with the scan state cached. *)
Lemma refresh_returns
  (w w1 : World D) (l1 : loc) (devices : list (Z * nat)) (state : Z) (d : D) :
  respond scan_devices (device w) = (Ret (devices, state), d) ->
  refresh w = (Ret l1, w1) ->
  (sum_values devices <> 1%nat /\ l1 = FAILURE_DEFAULT /\
   exists w0, w1 = after_failure (VStr "multiple_devices") w0) \/
  (l1 = FAILURE_DEFAULT /\ fails_with w1 l1 "no_device") \/
  (sum_values devices = 1%nat /\ _state w1 = Some state /\
   deref w1 l1 = [("dev", opt_dict (_dev_info w1)); ("success", VBool true)]).
Proof.
  intros Hscan. unfold refresh, bind. rewrite (call_run _ _ _ _ Hscan).
  destruct (sum_values devices =? 1)%nat eqn:Hn; cbn [negb].
  2:{ rewrite failure_default_run. intros [= <- <-]. left.
      apply Nat.eqb_neq in Hn. eauto. }
  apply Nat.eqb_eq in Hn.
  cbn [get_state _state].
  destruct (state_ne state (_state w)) eqn:Hne.
  - unfold try_except, bind. cbn [set_state].
    match goal with
    | |- context [call (connect_to_device None) ?w0] =>
        destruct (respond (connect_to_device None) (device w0)) as [o dc] eqn:Hc;
        rewrite (call_run _ w0 _ _ Hc)
    end.
    destruct o as [[[c device0] info]|e].
    2:{ cbn. intros [= <- <-]. right; left. split; [reflexivity|].
        apply (after_failure_fails_with "no_device"). }
    match goal with
    | |- context [call (connection_close c) ?w0] =>
        destruct (respond (connection_close c) (device w0)) as [o dx] eqn:Hx;
        rewrite (call_run _ w0 _ _ Hx)
    end.
    destruct o as [[]|e].
    2:{ cbn. intros [= <- <-]. right; left. split; [reflexivity|].
        apply (after_failure_fails_with "no_device"). }
    cbn [ret]. unfold lift.
    destruct (build_dev_info device0 info) as [di|e]; [|discriminate].
    cbn [set_dev_info ret get_dev_info _dev_info].
    match goal with
    | |- context [new_dict ?d0 ?w0] =>
        destruct (success_new_dict d0 w0) as (w' & E & Hd & _ & _ & Hs & Hi)
    end.
    unfold bind in E. rewrite E. intros [= <- <-]. right; right.
    split; [exact Hn|]. split; [exact Hs|].
    etransitivity; [exact Hd|]. now rewrite Hi.
  - cbn [ret get_dev_info].
    match goal with
    | |- context [new_dict ?d0 ?w0] =>
        destruct (success_new_dict d0 w0) as (w' & E & Hd & _ & _ & Hs & Hi)
    end.
    unfold bind in E. rewrite E. intros [= <- <-]. right; right.
    split; [exact Hn|]. split.
    + rewrite Hs. cbn [_state].
      unfold state_ne in Hne. destruct (_state w) as [s0|]; [|discriminate].
      apply negb_false_iff, Z.eqb_eq in Hne. now subst.
    + etransitivity; [exact Hd|]. now rewrite Hi.
Qed.

(** C7, amended. When a call of [refresh] has returned, not with the
    failure of [no_device], and the next scan finds what the scan of that
    call found, the next call of [refresh] returns a document equal to
    the document of the first call (the device information with
    [success], when the first call succeeded), the scan is its only call
    to the outside, so that no connection is opened, and [_dev_info] is
    left as it was. *)
Theorem refresh_again_unchanged
  (w w1 : World D) (l1 : loc) (devices : list (Z * nat)) (state : Z) (d d2 : D) :
  respond scan_devices (device w) = (Ret (devices, state), d) ->
  refresh w = (Ret l1, w1) ->
  ~ fails_with w1 l1 "no_device" ->
  respond scan_devices (device w1) = (Ret (devices, state), d2) ->
  exists l2 w2,
    refresh w1 = (Ret l2, w2) /\
    deref w2 l2 = deref w1 l1 /\
    trace w2 = trace w1 ++ [Ev scan_devices] /\
    existsb is_connect (trace w2) = existsb is_connect (trace w1) /\
    _dev_info w2 = _dev_info w1.
Proof.
  intros Hscan Hrun Hok Hscan2.
  assert (Htrace : forall t : list Event,
            existsb is_connect (t ++ [Ev scan_devices]) = existsb is_connect t).
  { intros t. rewrite existsb_app. cbn. now rewrite orb_false_r. }
  destruct (refresh_returns w w1 l1 devices state d Hscan Hrun)
    as [(Hn & -> & w0 & ->) | [(_ & Hno) | (Hn & Hs & Hdoc)]].
  - unfold refresh, bind. rewrite (call_run _ _ _ _ Hscan2).
    apply Nat.eqb_neq in Hn. rewrite Hn. cbn [negb].
    rewrite failure_default_run.
    eexists _, _. split; [reflexivity|].
    split; [|cbn [trace after_failure]; repeat split; apply Htrace].
    unfold deref. cbn [after_failure store heap_get failure_default].
    apply failure_doc_again.
  - contradiction.
  - unfold refresh, bind. rewrite (call_run _ _ _ _ Hscan2).
    rewrite Hn. cbn [Nat.eqb negb get_state _state].
    rewrite Hs. unfold state_ne. rewrite Z.eqb_refl.
    cbn [negb ret get_dev_info _dev_info].
    match goal with
    | |- context [new_dict ?d0 ?w0] =>
        destruct (success_new_dict d0 w0) as (w' & E & Hd & Ht & _ & _ & Hi)
    end.
    unfold bind in E. rewrite E.
    eexists _, w'. split; [reflexivity|].
    split; [etransitivity; [exact Hd|]; now rewrite Hdoc|].
    rewrite Ht, Hi. cbn [trace _dev_info].
    repeat split; auto.
Qed.

End Identity.

Section Boundary.

Context {D : Type} {lib : Yubikit} {dev : Device D}.

Lemma catch_error_value_error_run (f : M D loc) (w w1 : World D) (e : exn) :
  f w = (Raise e, w1) ->
  isinstance e ValueError = true ->
  catch_error f w
  = (Ret FAILURE_DEFAULT, after_failure (VStr "open_device_failed") w1).
Proof.
  intros Hf He. unfold catch_error, try_except. rewrite Hf.
  rewrite (isinstance_value_error_not_pcsc e He), He. reflexivity.
Qed.

(** The decoding steps at the head of [program_otp]: when one of them
    raises, the method raises before it opens the device. *)
Lemma program_otp_decoding_raises
  (slot : Z) (public_id private_id key : string) (upload : bool)
  (app_version : string) (w : World D) (e : exn) :
  a2b_hex key = Raise e \/
  (exists kb d, a2b_hex key = Ret kb /\
     respond (modhex_decode public_id) (device w) = (Raise e, d)) \/
  (exists kb pb d, a2b_hex key = Ret kb /\
     respond (modhex_decode public_id) (device w) = (Ret pb, d) /\
     a2b_hex private_id = Raise e) ->
  exists w1,
    program_otp slot public_id private_id key upload app_version w = (Raise e, w1) /\
    store w1 = store w /\
    existsb is_connect (trace w1) = existsb is_connect (trace w).
Proof.
  intros [Hk | [(kb & d & Hk & Hp) | (kb & pb & d & Hk & Hp & Hq)]];
    unfold program_otp, bind, lift; rewrite Hk.
  - eexists. repeat split.
  - rewrite (call_run _ _ _ _ Hp). eexists. split; [reflexivity|].
    split; [reflexivity|]. cbn [trace].
    rewrite existsb_app. cbn. now rewrite orb_false_r.
  - rewrite (call_run _ _ _ _ Hp), Hq. eexists. split; [reflexivity|].
    split; [reflexivity|]. cbn [trace].
    rewrite existsb_app. cbn. now rewrite orb_false_r.
Qed.

(** C10. When the method wrapped by [catch_error] raises a [ValueError],
    an instance of a subclass such as [binascii.Error] included, the
    wrapper returns the default failure document with the error id
    [open_device_failed], also when [str(e)] is [Incorrect padding], and
    adds no call to the outside; the document is exactly
    [{'success': False, 'error_id': 'open_device_failed'}] when only
    [failure] has written to its default document before.  This is what
    [program_otp] reports when [a2b_hex] rejects its key or its private id,
    or when [modhex_decode] raises a [ValueError] on its public id, and
    it has not connected to the device then. *)
Theorem catch_error_value_error :
  (forall (f : M D loc) (w w1 : World D) (e : exn),
     f w = (Raise e, w1) ->
     isinstance e ValueError = true ->
     exists w2,
       catch_error f w = (Ret FAILURE_DEFAULT, w2) /\
       fails_with w2 FAILURE_DEFAULT "open_device_failed" /\
       ~ fails_with w2 FAILURE_DEFAULT "incorrect_padding" /\
       (failure_default_clean (store w1) ->
        deref w2 FAILURE_DEFAULT
        = [("success", VBool false); ("error_id", VStr "open_device_failed")]) /\
       trace w2 = trace w1) /\
  (forall msg : string, isinstance (new_exn BinasciiError msg) ValueError = true) /\
  (forall (slot : Z) (public_id private_id key : string) (upload : bool)
          (app_version : string) (w : World D) (e : exn),
     (a2b_hex key = Raise e \/
      (exists kb d, a2b_hex key = Ret kb /\
         respond (modhex_decode public_id) (device w) = (Raise e, d) /\
         isinstance e ValueError = true) \/
      (exists kb pb d, a2b_hex key = Ret kb /\
         respond (modhex_decode public_id) (device w) = (Ret pb, d) /\
         a2b_hex private_id = Raise e)) ->
     exists w2,
       catch_error (program_otp slot public_id private_id key upload app_version) w
       = (Ret FAILURE_DEFAULT, w2) /\
       fails_with w2 FAILURE_DEFAULT "open_device_failed" /\
       (failure_default_clean (store w) ->
        deref w2 FAILURE_DEFAULT
        = [("success", VBool false); ("error_id", VStr "open_device_failed")]) /\
       existsb is_connect (trace w2) = existsb is_connect (trace w)).
Proof.
  assert (General : forall (f : M D loc) (w w1 : World D) (e : exn),
     f w = (Raise e, w1) ->
     isinstance e ValueError = true ->
     exists w2,
       catch_error f w = (Ret FAILURE_DEFAULT, w2) /\
       fails_with w2 FAILURE_DEFAULT "open_device_failed" /\
       ~ fails_with w2 FAILURE_DEFAULT "incorrect_padding" /\
       (failure_default_clean (store w1) ->
        deref w2 FAILURE_DEFAULT
        = [("success", VBool false); ("error_id", VStr "open_device_failed")]) /\
       trace w2 = trace w1).
  { intros f w w1 e Hf He.
    exists (after_failure (VStr "open_device_failed") w1).
    split; [now apply catch_error_value_error_run with (e := e)|].
    split; [apply after_failure_fails_with|].
    split.
    { intros [_ Hp].
      destruct (after_failure_fails_with "open_device_failed" w1) as [_ Ho].
      rewrite Ho in Hp. discriminate Hp. }
    split; [|reflexivity].
    intros Hc. unfold deref, after_failure. cbn [heap_get store failure_default].
    now apply failure_doc_clean. }
  split; [exact General|]. split; [reflexivity|].
  intros slot public_id private_id key upload app_version w e Hdec.
  assert (He : isinstance e ValueError = true).
  { destruct Hdec as [Hk | [(kb & d & _ & _ & He) | (kb & pb & d & _ & _ & Hq)]];
      [now apply a2b_hex_raises with (s := key) | exact He
      | now apply a2b_hex_raises with (s := private_id)]. }
  destruct (program_otp_decoding_raises slot public_id private_id key upload
              app_version w e) as (w1 & Hrun & Hstore & Hconn).
  { destruct Hdec as [Hk | [(kb & d & Hk & Hp & _) | Hq]]; eauto 6. }
  destruct (General _ w w1 e Hrun He) as (w2 & Hc & Hf & _ & Hdoc & Ht).
  exists w2. split; [exact Hc|]. split; [exact Hf|].
  split; [now rewrite <- Hstore | now rewrite Ht].
Qed.

End Boundary.

(** ** success() and the shared default document *)

Lemma success_default_exact {D : Type} (w : World D) :
  success_default (store w) = [] \/
  success_default (store w) = [("success", VBool true)] ->
  deref (snd (success None w)) SUCCESS_DEFAULT = [("success", VBool true)].
Proof. intros [E | E]; unfold deref; cbn; rewrite E; reflexivity. Qed.

Lemma failure_keeps_success_default {D : Type} (w : World D)
  (err_id : value) (result : option loc) :
  result <> Some SUCCESS_DEFAULT ->
  success_default (store (snd (failure err_id result w)))
  = success_default (store w).
Proof. destruct result as [[| |n]|]; intros H; try reflexivity. congruence. Qed.

(** C9. The calls [r = success()], [failure('e', r)], [success()], made
    right after the module is loaded: all three return the one default
    document of [success], and the document returned by the last call is
    [{'success': True, 'error_id': 'e'}]. *)
Theorem success_default_shared :
  let run :=
    (a <- success None;;
     b <- failure (VStr "e") (Some a);;
     c <- success None;;
     ret (a, b, c))%py (module_world tt) in
  fst run = Ret (SUCCESS_DEFAULT, SUCCESS_DEFAULT, SUCCESS_DEFAULT) /\
  deref (snd run) SUCCESS_DEFAULT
  = [("success", VBool true); ("error_id", VStr "e")] /\
  dict_get (deref (snd run) SUCCESS_DEFAULT) "error_id" = Some (VStr "e").
Proof. vm_compute. repeat split. Qed.

(** ** Runs on the simulated key *)

(** C1. On a key with PIN 123456 and three tries left, [verify_pin] of
    000000 raises [InvalidPinError] and leaves two tries;
    [_piv_verify_pin] with that PIN returns [None], writes no failure
    document and does not ask for the tries left, while [piv_change_pin]
    with the same old PIN returns
    [{'tries_left': 2, 'success': False, 'error_id': 'wrong_pin'}]. *)
Theorem piv_verify_pin_wrong_pin_unreported :
  let w := module_world Sim.key in
  let r := _piv_verify_pin 0%nat (Some "000000") w in
  let c := piv_change_pin "000000" "111111" w in
  respond (verify_pin 0%nat "000000") (device w)
  = (Raise Sim.invalid_pin, Sim.with_tries Sim.key 2%Z) /\
  fst r = Ret None /\
  store (snd r) = module_heap /\
  trace (snd r) = [Ev (verify_pin 0%nat "000000")] /\
  Sim.pin_tries (device (snd r)) = 2%Z /\
  fst c = Ret (Obj 0) /\
  deref (snd c) (Obj 0)
  = [("tries_left", VInt 2); ("success", VBool false);
     ("error_id", VStr "wrong_pin")].
Proof. vm_compute. repeat split. Qed.

(** C2 on the simulated key: protected-key mode with the empty PIN, and
    explicit-key mode without a management key. *)
Lemma ensure_authenticated_credential_required_witness :
  (exists w',
     _piv_ensure_authenticated 0%nat (Some "") (Some "00")
       (module_world (Sim.protected Sim.key)) = (Ret (Some FAILURE_DEFAULT), w') /\
     fails_with w' FAILURE_DEFAULT "pin_required" /\
     trace w' = [] ++ [Ev (get_pivman_data 0%nat)]) /\
  (exists w',
     _piv_ensure_authenticated 0%nat (Some "123456") None
       (module_world Sim.key) = (Ret (Some FAILURE_DEFAULT), w') /\
     fails_with w' FAILURE_DEFAULT "mgm_key_required" /\
     trace w' = [] ++ [Ev (get_pivman_data 0%nat)]).
Proof.
  split.
  - apply (proj1 (ensure_authenticated_credential_required (dev := Sim.key_device)
                    (module_world (Sim.protected Sim.key)) 0%nat
                    (mkPivman true false false false) (Sim.protected Sim.key)
                    (Some "") (Some "00") eq_refl)); reflexivity.
  - apply (proj2 (ensure_authenticated_credential_required (dev := Sim.key_device)
                    (module_world Sim.key) 0%nat
                    (mkPivman false false false false) Sim.key
                    (Some "123456") None eq_refl)); reflexivity.
Defined.

(** C3 on the simulated key: a wrong PIN in protected-key mode, and 48
    digits that are not the management key in explicit-key mode. *)
Lemma ensure_authenticated_swallows_rejection_witness :
  _piv_ensure_authenticated 0%nat (Some "000000") None
    (module_world (Sim.protected Sim.key))
  = (Ret None,
     mkWorld (Sim.with_tries (Sim.protected Sim.key) 2%Z) module_heap
       ([] ++ [Ev (get_pivman_data 0%nat); Ev (verify_pin 0%nat "000000")])
       None None) /\
  exists b,
    a2b_hex Sim.ones48 = Ret b /\ List.length b = 24%nat /\
    _piv_ensure_authenticated 0%nat None (Some Sim.ones48) (module_world Sim.key)
    = (Ret None,
       mkWorld Sim.key module_heap
         ([] ++ [Ev (get_pivman_data 0%nat); Ev (authenticate 0%nat b)])
         None None).
Proof.
  split.
  - apply (proj1 (ensure_authenticated_swallows_rejection (dev := Sim.key_device)
                    (module_world (Sim.protected Sim.key)) 0%nat
                    (mkPivman true false false false) (Sim.protected Sim.key)
                    (Some "000000") None eq_refl) eq_refl "000000" eq_refl
             ltac:(discriminate) (Raise Sim.invalid_pin)).
    reflexivity.
  - destruct (proj2 (ensure_authenticated_swallows_rejection (dev := Sim.key_device)
                       (module_world Sim.key) 0%nat
                       (mkPivman false false false false) Sim.key
                       None (Some Sim.ones48) eq_refl) eq_refl Sim.ones48 eq_refl eq_refl)
      as (b & Eb & Lb & Hrun).
    exists b. split; [exact Eb|]. split; [exact Lb|].
    apply (Hrun (Raise Sim.security_condition_not_satisfied)).
    vm_compute in Eb. injection Eb as <-. reflexivity.
Defined.

(** C4 as stated fails on the empty management key, which is taken for a
    missing one. *)
Lemma ensure_authenticated_empty_mgm_key :
  let r := _piv_ensure_authenticated 0%nat None (Some "") (module_world Sim.key) in
  well_formed_mgm_key "" = false /\
  has_protected_key (mkPivman (Sim.protected_key Sim.key) false false false) = false /\
  fst r = Ret (Some FAILURE_DEFAULT) /\
  deref (snd r) FAILURE_DEFAULT
  = [("success", VBool false); ("error_id", VStr "mgm_key_required")] /\
  ~ fails_with (snd r) FAILURE_DEFAULT "mgm_key_bad_format".
Proof.
  vm_compute. repeat split. intros [_ H]. discriminate H.
Qed.

(** C4, amended, on the management key [zz]. *)
Lemma ensure_authenticated_mgm_key_bad_format_witness :
  exists w',
    _piv_ensure_authenticated 0%nat None (Some "zz") (module_world Sim.key)
    = (Ret (Some FAILURE_DEFAULT), w') /\
    fails_with w' FAILURE_DEFAULT "mgm_key_bad_format" /\
    trace w' = [] ++ [Ev (get_pivman_data 0%nat)] /\
    existsb is_authenticate (trace w') = existsb is_authenticate [] /\
    device w' = Sim.key.
Proof.
  apply (ensure_authenticated_mgm_key_bad_format (dev := Sim.key_device)
           (module_world Sim.key) 0%nat (mkPivman false false false false)
           Sim.key None "zz" eq_refl eq_refl ltac:(discriminate) eq_refl).
Defined.

(** C5 as stated fails on three lock codes that do not decode to 16 bytes: [zz] is not
    hexadecimal, and [write_config] raises [binascii.Error], which
    [catch_error] reports as [open_device_failed]; the empty string is
    taken for no lock code, and the configuration is written; [00] on a
    key that cannot be opened raises the connection error. *)
Lemma write_config_other_lock_codes :
  let r1 := write_config ["PIV"] [] (Some "zz") (module_world Sim.key) in
  let c1 := catch_error (write_config ["PIV"] [] (Some "zz")) (module_world Sim.key) in
  let r2 := write_config ["PIV"] [] (Some "") (module_world Sim.key) in
  let r3 := write_config ["PIV"] [] (Some "00") (module_world (Sim.busy Sim.key)) in
  (a2b_hex "zz" = Raise (new_exn BinasciiError "Non-hexadecimal digit found") /\
   fst r1 = Raise (new_exn BinasciiError "Non-hexadecimal digit found") /\
   fst c1 = Ret FAILURE_DEFAULT /\
   deref (snd c1) FAILURE_DEFAULT
   = [("success", VBool false); ("error_id", VStr "open_device_failed")]) /\
  (a2b_hex "" = Ret [] /\
   fst r2 = Ret SUCCESS_DEFAULT /\
   deref (snd r2) SUCCESS_DEFAULT = [("success", VBool true)] /\
   trace (snd r2)
   = [Ev (connect_to_device (Some ALL_INTERFACES)); Ev (ManagementSession 0%nat);
      Ev (write_device_config 0%nat 0x10%Z 0%Z true (LockStr ""));
      Ev (connection_close 0%nat)] /\
   Sim.writes (device (snd r2)) = 1%nat) /\
  (a2b_hex "00" = Ret [x00] /\
   fst r3 = Raise Sim.no_key /\
   store (snd r3) = module_heap).
Proof. vm_compute. repeat split. Qed.

(** C5, amended, on the lock code [00], one byte. *)
Lemma write_config_lock_code_length_witness :
  exists w',
    write_config ["PIV"] ["OTP"] (Some "00") (module_world Sim.key)
    = (Ret FAILURE_DEFAULT, w') /\
    fails_with w' FAILURE_DEFAULT "lock_code_not_16_bytes" /\
    trace w' = [] ++ [Ev (connect_to_device (Some ALL_INTERFACES));
                      Ev (connection_close 0%nat)] /\
    existsb is_write_device_config (trace w') = existsb is_write_device_config [] /\
    _state w' = None /\
    device w' = Sim.key.
Proof.
  apply (write_config_lock_code_length (lib := Sim.yubikit) (dev := Sim.key_device)
           (module_world Sim.key) ["PIV"] ["OTP"] 0x10%Z 0x01%Z "00" [x00]
           0%nat (mkYkDevice 0x0407%Z) Sim.the_info Sim.key Sim.key
           eq_refl eq_refl ltac:(discriminate) eq_refl ltac:(discriminate)
           eq_refl eq_refl).
Defined.

(** C6 as stated fails with no device plugged in: [refresh] reports
    [multiple_devices], not [no_device]. *)
Lemma refresh_no_device_plugged :
  let r := refresh (module_world Sim.unplugged) in
  sum_values (Sim.detected Sim.unplugged) = 0%nat /\
  fst r = Ret FAILURE_DEFAULT /\
  deref (snd r) FAILURE_DEFAULT
  = [("success", VBool false); ("error_id", VStr "multiple_devices")] /\
  ~ fails_with (snd r) FAILURE_DEFAULT "no_device".
Proof.
  vm_compute. repeat split. intros [_ H]. discriminate H.
Qed.

(** C6, amended, with no device plugged in. *)
Lemma refresh_unless_one_device_witness :
  exists w',
    refresh (module_world Sim.unplugged) = (Ret FAILURE_DEFAULT, w') /\
    fails_with w' FAILURE_DEFAULT "multiple_devices" /\
    trace w' = [] ++ [Ev scan_devices] /\
    _state w' = None /\
    _dev_info w' = None.
Proof.
  apply (refresh_unless_one_device (lib := Sim.yubikit) (dev := Sim.key_device)
           (module_world Sim.unplugged) [] 0%Z Sim.unplugged eq_refl).
  discriminate.
Defined.

(** C7 as stated fails in two ways, the scan finding the same both
    times.  On a key that another program holds during the first call,
    the first [refresh] reports [no_device] and the second one opens a
    connection and returns another document.  On a key whose information
    has no entry for the USB transport, the first [refresh] raises while
    it builds the device information, after it has stored the scan state:
    its caller gets the document of an unknown failure from
    [catch_error], and the second call, which only scans, reports success
    with the information cached before, here none. *)
Lemma refresh_again_differs :
  (let w := module_world (Sim.busy Sim.key) in
   let r1 := refresh w in
   let r2 := refresh (snd r1) in
   fst (respond scan_devices (device (snd r1))) = fst (respond scan_devices (device w)) /\
   fst r1 = Ret FAILURE_DEFAULT /\
   deref (snd r1) FAILURE_DEFAULT
   = [("success", VBool false); ("error_id", VStr "no_device")] /\
   fst r2 = Ret (Obj 0) /\
   trace (snd r2)
   = trace (snd r1) ++ [Ev scan_devices; Ev (connect_to_device None);
                        Ev (connection_close 0%nat)] /\
   existsb is_connect (skipn (List.length (trace (snd r1))) (trace (snd r2))) = true /\
   dict_get (deref (snd r2) (Obj 0)) "success" = Some (VBool true) /\
   deref (snd r2) (Obj 0) <> deref (snd r1) FAILURE_DEFAULT) /\
  (let w := module_world (Rig.mkKey Sim.key Rig.no_usb_entry) in
   let r1 := catch_error refresh w in
   let r2 := catch_error refresh (snd r1) in
   fst (respond scan_devices (device (snd r1))) = fst (respond scan_devices (device w)) /\
   fst (refresh w)
   = Raise (new_exn TypeError "argument of type 'NoneType' is not iterable") /\
   fst r1 = Ret (Obj 0) /\
   deref (snd r1) (Obj 0)
   = [("error_message", VStr "argument of type 'NoneType' is not iterable");
      ("success", VBool false); ("error_id", VNone)] /\
   fst r2 = fst (refresh (snd r1)) /\
   fst r2 = Ret (Obj 1) /\
   trace (snd r2) = trace (snd r1) ++ [Ev scan_devices] /\
   deref (snd r2) (Obj 1) = [("dev", VNone); ("success", VBool true)] /\
   deref (snd r2) (Obj 1) <> deref (snd r1) (Obj 0)).
Proof.
  split; vm_compute; repeat split; discriminate.
Qed.

(** C7, amended, on two calls of [refresh] with the key plugged in. *)
Lemma refresh_again_unchanged_witness :
  let w := module_world Sim.key in
  let w1 := snd (refresh w) in
  exists l2 w2,
    refresh w1 = (Ret l2, w2) /\
    deref w2 l2 = deref w1 (Obj 0) /\
    trace w2 = trace w1 ++ [Ev scan_devices] /\
    existsb is_connect (trace w2) = existsb is_connect (trace w1) /\
    _dev_info w2 = _dev_info w1.
Proof.
  intros w w1.
  apply (refresh_again_unchanged (lib := Sim.yubikit) (dev := Sim.key_device)
           w w1 (Obj 0) [(0x0407%Z, 1%nat)] 11%Z Sim.key Sim.key
           eq_refl eq_refl).
  - intros [H _]. discriminate H.
  - reflexivity.
Defined.

(** C10 on [program_otp] with the key [zz]. *)
Lemma catch_error_value_error_witness :
  let f := program_otp 1%Z "cccccccccccc" "010203040506" "zz" false "unknown" in
  let w := module_world Sim.key in
  (exists w2,
     catch_error f w = (Ret FAILURE_DEFAULT, w2) /\
     fails_with w2 FAILURE_DEFAULT "open_device_failed" /\
     ~ fails_with w2 FAILURE_DEFAULT "incorrect_padding" /\
     (failure_default_clean (store w) ->
      deref w2 FAILURE_DEFAULT
      = [("success", VBool false); ("error_id", VStr "open_device_failed")]) /\
     trace w2 = trace w) /\
  (exists w2,
     catch_error f w = (Ret FAILURE_DEFAULT, w2) /\
     fails_with w2 FAILURE_DEFAULT "open_device_failed" /\
     (failure_default_clean (store w) ->
      deref w2 FAILURE_DEFAULT
      = [("success", VBool false); ("error_id", VStr "open_device_failed")]) /\
     existsb is_connect (trace w2) = existsb is_connect (trace w)) /\
  failure_default_clean (store w).
Proof.
  intros f w. split; [|split].
  - apply (proj1 (catch_error_value_error (dev := Sim.key_device))
             f w w (new_exn BinasciiError "Non-hexadecimal digit found")
             eq_refl eq_refl).
  - apply (proj2 (proj2 (catch_error_value_error (dev := Sim.key_device)))
             1%Z "cccccccccccc" "010203040506" "zz" false "unknown" w
             (new_exn BinasciiError "Non-hexadecimal digit found")
             (or_introl eq_refl)).
  - left. reflexivity.
Defined.

(** * More properties of the module *)

Section BoundaryMore.

Context {D : Type} {lib : Yubikit} {dev : Device D}.

Lemma unknown_failure_run (e : exn) (w : World D) :
  exists w',
    unknown_failure e w = (Ret (Obj (List.length (objects (store w)))), w') /\
    deref w' (Obj (List.length (objects (store w))))
    = [("error_message", VStr (exn_str e)); ("success", VBool false);
       ("error_id", VNone)] /\
    success_default (store w') = success_default (store w) /\
    failure_default (store w') = failure_default (store w) /\
    trace w' = trace w /\ device w' = device w /\
    _state w' = _state w /\ _dev_info w' = _dev_info w.
Proof.
  eexists. split; [reflexivity|]. split; [|repeat split].
  unfold deref. cbn.
  generalize (objects (store w)) as os.
  induction os as [|x os IH]; [reflexivity|exact IH].
Qed.

(** X1. An exception that is an [Exception] but neither a [ValueError] nor
    the PC/SC one, and whose text is not [Incorrect padding], is reported
    by [catch_error] in a new document
    [{'error_message': str(e), 'success': False, 'error_id': None}]; the
    two default documents are not written and no call is made. *)
Theorem catch_error_unknown_failure
  (f : M D loc) (w w1 : World D) (e : exn) :
  f w = (Raise e, w1) ->
  isinstance e Exception = true ->
  isinstance e ValueError = false ->
  isinstance e EstablishContextException = false ->
  exn_str e <> "Incorrect padding" ->
  exists l w2,
    catch_error f w = (Ret l, w2) /\
    l <> SUCCESS_DEFAULT /\ l <> FAILURE_DEFAULT /\
    deref w2 l
    = [("error_message", VStr (exn_str e)); ("success", VBool false);
       ("error_id", VNone)] /\
    success_default (store w2) = success_default (store w1) /\
    failure_default (store w2) = failure_default (store w1) /\
    trace w2 = trace w1.
Proof.
  intros Hf He Hv Hp Hs.
  unfold catch_error, try_except. rewrite Hf, Hp, Hv, He.
  apply String.eqb_neq in Hs. rewrite Hs.
  destruct (unknown_failure_run e w1) as (w2 & Hr & Hd & Hsd & Hfd & Ht & _).
  rewrite Hr. eexists _, w2. split; [reflexivity|].
  repeat split; auto; discriminate.
Qed.

(** X2. Whatever the wrapped method does, [catch_error] lets no
    [Exception] out: it returns what the method returned, or a document
    with [success] false for an [Exception] the method raised, or raises
    the exception of the method when that is no [Exception] (such as
    [KeyboardInterrupt]). *)
Theorem catch_error_lets_no_exception_out (f : M D loc) (w : World D) :
  match f w, catch_error f w with
  | (Ret l, w1), r => r = (Ret l, w1)
  | (Raise e, w1), (Ret l, w2) =>
      isinstance e Exception = true /\
      dict_get (deref w2 l) "success" = Some (VBool false) /\
      trace w2 = trace w1
  | (Raise e, w1), (Raise e', w2) =>
      isinstance e Exception = false /\ e' = e /\ w2 = w1
  end.
Proof.
  unfold catch_error, try_except.
  destruct (f w) as [[l|e] w1]; [reflexivity|].
  assert (Hfail : forall err, 
            isinstance e Exception = true ->
            match failure err None w1 with
            | (Ret l, w2) =>
                isinstance e Exception = true /\
                dict_get (deref w2 l) "success" = Some (VBool false) /\
                trace w2 = trace w1
            | (Raise e', w2) => isinstance e Exception = false /\ e' = e /\ w2 = w1
            end).
  { intros err He. rewrite failure_default_run. split; [exact He|]. split; [|reflexivity].
    unfold deref, after_failure. cbn [heap_get store failure_default].
    apply (failure_doc_reports err). }
  destruct (isinstance e EstablishContextException) eqn:Hp.
  { apply Hfail. unfold isinstance in *. destruct (exn_type e); vm_compute in Hp |- *; congruence. }
  destruct (isinstance e ValueError) eqn:Hv.
  { apply Hfail. now apply isinstance_value_error_exception. }
  destruct (isinstance e Exception) eqn:He.
  - destruct (String.eqb (exn_str e) "Incorrect padding"); [now apply Hfail|].
    destruct (unknown_failure_run e w1) as (w2 & Hr & Hd & _ & _ & Ht & _).
    rewrite Hr. split; [reflexivity|]. split; [|exact Ht].
    rewrite Hd. reflexivity.
  - unfold raise. auto.
Qed.

End BoundaryMore.

(** ** Rules to follow a computation along all its paths *)

Lemma nth_list_update_twice_last (os : list doc) (d : doc) (f g : doc -> doc) :
  nth (List.length os)
    (list_update (list_update (os ++ [d]) (List.length os) f) (List.length os) g)
    [] = g (f d).
Proof. induction os as [|x os IH]; simpl; auto. Qed.

Section Rules.

Context {D : Type} {lib : Yubikit} {dev : Device D}.

Lemma post_run {A} (m : M D A) (w w' : World D) (o : outcome A)
  (Q : outcome A -> World D -> Prop) :
  post m w Q -> m w = (o, w') -> Q o w'.
Proof. unfold post. intros H E. now rewrite E in H. Qed.

Lemma post_outcome {A} (m : M D A) (w : World D)
  (Q : outcome A -> World D -> Prop) :
  post m w Q -> exists o w', m w = (o, w') /\ Q o w'.
Proof.
  unfold post. destruct (m w) as [o w']. eauto.
Qed.

Lemma post_ret {A} (a : A) (w : World D) (Q : outcome A -> World D -> Prop) :
  Q (Ret a) w -> post (ret a) w Q.
Proof. auto. Qed.

Lemma post_raise {A} (e : exn) (w : World D) (Q : outcome A -> World D -> Prop) :
  Q (Raise e) w -> post (raise e) w Q.
Proof. auto. Qed.

Lemma post_lift {A} (o : outcome A) (w : World D)
  (Q : outcome A -> World D -> Prop) :
  Q o w -> post (lift o) w Q.
Proof. auto. Qed.

Lemma post_bind {A B} (m : M D A) (k : A -> M D B) (w : World D)
  (Q : outcome B -> World D -> Prop) :
  post m w (fun o w' =>
    match o with
    | Ret a => post (k a) w' Q
    | Raise e => Q (Raise e) w'
    end) ->
  post (bind m k) w Q.
Proof.
  unfold post, bind. destruct (m w) as [[a|e] w']; cbn; auto.
Qed.

Lemma post_call {R} (c : Call R) (w : World D)
  (Q : outcome R -> World D -> Prop) :
  (forall o d, respond c (device w) = (o, d) -> Q o (called c d w)) ->
  post (call c) w Q.
Proof.
  intros H. unfold post, call.
  destruct (respond c (device w)) as [o d] eqn:E. cbn. now apply H.
Qed.

Lemma post_try_except {A} (m : M D A) (h : exn -> M D A) (w : World D)
  (Q : outcome A -> World D -> Prop) :
  post m w (fun o w' =>
    match o with
    | Ret a => Q (Ret a) w'
    | Raise e => post (h e) w' Q
    end) ->
  post (try_except m h) w Q.
Proof.
  unfold post, try_except. destruct (m w) as [[a|e] w']; cbn; auto.
Qed.

Lemma post_with_exit {A} (exit_ : M D unit) (body : M D A) (w : World D)
  (Q : outcome A -> World D -> Prop) :
  post body w (fun o w' =>
    post exit_ w' (fun o' w'' =>
      match o' with
      | Ret _ => Q o w''
      | Raise e => Q (Raise e) w''
      end)) ->
  post (with_exit exit_ body) w Q.
Proof.
  unfold post, with_exit. destruct (body w) as [o w']. cbn.
  destruct (exit_ w') as [[u|e] w'']; cbn; auto.
Qed.

Lemma post_set_state (s : option Z) (w : World D)
  (Q : outcome unit -> World D -> Prop) :
  Q (Ret tt) (mkWorld (device w) (store w) (trace w) s (_dev_info w)) ->
  post (set_state s) w Q.
Proof. auto. Qed.

Lemma post_set_dev_info (i : option doc) (w : World D)
  (Q : outcome unit -> World D -> Prop) :
  Q (Ret tt) (mkWorld (device w) (store w) (trace w) (_state w) i) ->
  post (set_dev_info i) w Q.
Proof. auto. Qed.

Lemma post_get_state (w : World D) (Q : outcome (option Z) -> World D -> Prop) :
  Q (Ret (_state w)) w -> post get_state w Q.
Proof. auto. Qed.

Lemma post_get_dev_info (w : World D)
  (Q : outcome (option doc) -> World D -> Prop) :
  Q (Ret (_dev_info w)) w -> post get_dev_info w Q.
Proof. auto. Qed.

Lemma post_failure_default (err_id : value) (w : World D)
  (Q : outcome loc -> World D -> Prop) :
  Q (Ret FAILURE_DEFAULT) (after_failure err_id w) ->
  post (failure err_id None) w Q.
Proof. auto. Qed.

Lemma post_success_default (w : World D) (Q : outcome loc -> World D -> Prop) :
  Q (Ret SUCCESS_DEFAULT)
    (mkWorld (device w)
       (mkHeap (dict_set "success" (VBool true) (success_default (store w)))
          (failure_default (store w)) (objects (store w)))
       (trace w) (_state w) (_dev_info w)) ->
  post (success None) w Q.
Proof. auto. Qed.

(** [success({...})] and [failure(err_id, {...})] on a new document. *)
Lemma post_success_new (d0 : doc) (w : World D)
  (Q : outcome loc -> World D -> Prop) :
  (forall w', deref w' (Obj (List.length (objects (store w))))
              = dict_set "success" (VBool true) d0 ->
              success_default (store w') = success_default (store w) ->
              failure_default (store w') = failure_default (store w) ->
              trace w' = trace w -> device w' = device w ->
              _state w' = _state w -> _dev_info w' = _dev_info w ->
              Q (Ret (Obj (List.length (objects (store w))))) w') ->
  post (bind (new_dict d0) (fun d => success (Some d))) w Q.
Proof.
  intros H. unfold post. cbn. apply H; try reflexivity.
  unfold deref. cbn. apply nth_list_update_last.
Qed.

Lemma post_failure_new (err_id : value) (d0 : doc) (w : World D)
  (Q : outcome loc -> World D -> Prop) :
  (forall w', deref w' (Obj (List.length (objects (store w))))
              = dict_set "error_id" err_id (dict_set "success" (VBool false) d0) ->
              success_default (store w') = success_default (store w) ->
              failure_default (store w') = failure_default (store w) ->
              trace w' = trace w -> device w' = device w ->
              _state w' = _state w -> _dev_info w' = _dev_info w ->
              Q (Ret (Obj (List.length (objects (store w))))) w') ->
  post (bind (new_dict d0) (fun d => failure err_id (Some d))) w Q.
Proof.
  intros H. unfold post. cbn. apply H; try reflexivity.
  unfold deref. cbn. apply nth_list_update_twice_last.
Qed.

Lemma post_failure_new_bind {B} (err_id : value) (d0 : doc)
  (k : loc -> M D B) (w : World D) (Q : outcome B -> World D -> Prop) :
  (forall w', deref w' (Obj (List.length (objects (store w))))
              = dict_set "error_id" err_id (dict_set "success" (VBool false) d0) ->
              success_default (store w') = success_default (store w) ->
              failure_default (store w') = failure_default (store w) ->
              trace w' = trace w -> device w' = device w ->
              _state w' = _state w -> _dev_info w' = _dev_info w ->
              post (k (Obj (List.length (objects (store w))))) w' Q) ->
  post (bind (new_dict d0) (fun d => bind (failure err_id (Some d)) k)) w Q.
Proof.
  intros H. unfold post, bind. cbn. apply H; try reflexivity.
  unfold deref. cbn. apply nth_list_update_twice_last.
Qed.

Lemma post_new_dict (d0 : doc) (w : World D)
  (Q : outcome loc -> World D -> Prop) :
  (forall w', deref w' (Obj (List.length (objects (store w)))) = d0 ->
              success_default (store w') = success_default (store w) ->
              failure_default (store w') = failure_default (store w) ->
              trace w' = trace w -> device w' = device w ->
              _state w' = _state w -> _dev_info w' = _dev_info w ->
              Q (Ret (Obj (List.length (objects (store w))))) w') ->
  post (new_dict d0) w Q.
Proof.
  intros H. unfold post. cbn. apply H; try reflexivity.
  unfold deref. cbn. apply nth_middle.
Qed.

End Rules.

(** The answer to a call is one of the hypotheses, or any answer. *)
Ltac post_answer o d H :=
  cbn [called after_failure device] in H;
  repeat match goal with
         | Hd : device ?x = _ |- _ => is_var x; rewrite Hd in H
         end;
  cbn [called after_failure device] in H;
  first
    [ match goal with
      | K : respond ?c ?d0 = (_, _) |- _ =>
          match type of H with
          | respond c d0 = _ => rewrite K in H; injection H as <- <-
          end
      end
    | destruct o as [?|?] ].

(** One step along a computation. *)
Ltac post_step :=
  cbn [called after_failure _state _dev_info];
  lazymatch goal with
  | |- post (bind (new_dict _) (fun d => success (Some d))) _ _ =>
      apply post_success_new; intros ? ? ? ? ? ? ? ?
  | |- post (bind (new_dict _) (fun d => failure _ (Some d))) _ _ =>
      apply post_failure_new; intros ? ? ? ? ? ? ? ?
  | |- post (bind (new_dict _) (fun d => bind (failure _ (Some d)) _)) _ _ =>
      apply post_failure_new_bind; intros ? ? ? ? ? ? ? ?
  | |- post (new_dict _) _ _ =>
      apply post_new_dict; intros ? ? ? ? ? ? ? ?
  | |- post (bind _ _) _ _ => apply post_bind
  | |- post (call _) _ _ =>
      let o := fresh "o" in
      let d := fresh "d" in
      let H := fresh "Hcall" in
      apply post_call; intros o d H; post_answer o d H
  | |- post (try_except _ _) _ _ => apply post_try_except
  | |- post (with_exit _ _) _ _ => apply post_with_exit
  | |- post (ret _) _ _ => apply post_ret
  | |- post (raise _) _ _ => apply post_raise
  | |- post (lift ?o) _ _ =>
      apply post_lift;
      first [ match goal with K : o = _ |- _ => rewrite K end
            | destruct o as [?|?] eqn:? ]
  | |- post (set_state _) _ _ => apply post_set_state
  | |- post (set_dev_info _) _ _ => apply post_set_dev_info
  | |- post get_state _ _ => apply post_get_state
  | |- post get_dev_info _ _ => apply post_get_dev_info
  | |- post (failure _ None) _ _ => apply post_failure_default
  | |- post (success None) _ _ => apply post_success_default
  | |- post (if ?b then _ else _) _ _ =>
      first [ match goal with K : b = _ |- _ => rewrite K end
            | destruct b eqn:? ]
  | |- post (match ?x with _ => _ end) _ _ =>
      first [ match goal with K : x = _ |- _ => rewrite K end
            | destruct x eqn:? ]
  end; cbn beta iota.

Ltac post_steps := repeat post_step.

(** Use what is known of the world after [success({...})] or
    [failure(err_id, {...})], and compute the fields of the others. *)
Ltac post_facts :=
  cbn [called after_failure trace device _state _dev_info store];
  repeat match goal with
         | H : trace ?x = _ |- _ => is_var x; rewrite H; clear H
         | H : device ?x = _ |- _ => is_var x; rewrite ?H; clear H
         | H : _state ?x = _ |- _ => is_var x; rewrite ?H; clear H
         | H : _dev_info ?x = _ |- _ => is_var x; rewrite ?H; clear H
         end;
  cbn [called after_failure trace device _state _dev_info store].

Section ConfigurationMore.

Context {D : Type} {lib : Yubikit} {dev : Device D}.

Lemma after_failure_not_success (err_id : value) (w w' : World D) :
  store w' = store (after_failure err_id w) ->
  ~ reports_success w' FAILURE_DEFAULT.
Proof.
  unfold reports_success, deref. intros ->.
  cbn [after_failure store heap_get failure_default].
  rewrite (proj1 (failure_doc_reports err_id _)). discriminate.
Qed.

Lemma reports_success_default (w : World D) (d : doc) :
  success_default (store w) = dict_set "success" (VBool true) d ->
  reports_success w SUCCESS_DEFAULT.
Proof.
  unfold reports_success, deref. cbn [heap_get]. intros ->.
  apply dict_get_set_same.
Qed.

(** What [write_config] has done when it returns: a failure document,
    with [_state] as it was, or the default success document after
    [write_device_config] has returned and [_state] has been reset. *)
Lemma write_config_returns
  (usb_applications nfc_applications : list string) (lock_code : option string)
  (w : World D) :
  post (write_config usb_applications nfc_applications lock_code) w
    (fun o w1 =>
       match o with
       | Ret l =>
           (l = FAILURE_DEFAULT /\ ~ reports_success w1 l /\ _state w1 = _state w) \/
           (l = SUCCESS_DEFAULT /\ reports_success w1 l /\ _state w1 = None /\
            written_through usb_applications nfc_applications lock_code w w1)
       | Raise _ => True
       end).
Proof.
  unfold write_config, with_open_device, _open_device.
  post_steps.
  all: try exact I.
  all: try (left; split; [reflexivity|]; split;
            [eapply after_failure_not_success; reflexivity | reflexivity]).
  all: right; split; [reflexivity|]; split;
    [eapply reports_success_default; reflexivity|]; split; [reflexivity|].
  all: repeat match goal with u : unit |- _ => destruct u end.
  all: unfold written_through; post_facts; rewrite <- ?app_assoc; cbn [app].
  all: do 10 eexists.
  all: split; [eassumption|]; split; [eassumption|].
  all: split;
    [ first [ left; split; [eassumption | reflexivity]
            | right; do 2 eexists; split; [eassumption|]; split; [eassumption|];
              split; [|reflexivity];
              match goal with
              | K : negb (_ =? 16)%nat = false |- _ =>
                  apply negb_false_iff, Nat.eqb_eq in K; exact K
              end ] |].
  all: split; [eassumption|]; split; [eassumption|]; split; [eassumption|].
  all: split; [eassumption | reflexivity].
Qed.

(** After [_state] has been reset, [refresh] connects as soon as the
    scan finds one device. *)
Lemma refresh_connects_without_state
  (w : World D) (devices : list (Z * nat)) (state : Z) (d : D) :
  _state w = None ->
  respond scan_devices (device w) = (Ret (devices, state), d) ->
  sum_values devices = 1%nat ->
  exists rest,
    trace (snd (refresh w))
    = trace w ++ Ev scan_devices :: Ev (connect_to_device None) :: rest.
Proof.
  intros Hs Hscan Hn.
  change (post refresh w (fun _ w' =>
            exists rest,
              trace w' = trace w ++ Ev scan_devices :: Ev (connect_to_device None) :: rest)).
  unfold refresh. apply post_bind, post_call. intros o d0 Hc.
  rewrite Hscan in Hc. injection Hc as <- <-. cbn beta iota.
  rewrite Hn. cbn [Nat.eqb negb].
  apply post_bind, post_get_state. cbn beta iota.
  cbn [called _state]. rewrite Hs. cbn [state_ne].
  post_steps.
  all: post_facts; rewrite <- ?app_assoc; cbn [app]; eexists; reflexivity.
Qed.

(** X3. [write_config] returns a success document only when, in this
    call, [write_device_config] has been called and has returned: its
    calls to the outside are then the opening of the connection, the
    making of the session, the write, with the masks of the two lists and
    with no lock code or one of 16 bytes, and the closing, and none of
    them has raised.  [_state] is [None] then: the next [refresh] that
    finds one device connects to it again instead of serving the cached
    information.  When [write_config] returns a failure document,
    [_state] is as before. *)
Theorem write_config_resets_state
  (usb_applications nfc_applications : list string) (lock_code : option string)
  (w w1 : World D) (l : loc) :
  write_config usb_applications nfc_applications lock_code w = (Ret l, w1) ->
  (reports_success w1 l ->
   written_through usb_applications nfc_applications lock_code w w1 /\
   _state w1 = None /\
   existsb is_write_device_config (trace w1) = true /\
   forall devices state d,
     respond scan_devices (device w1) = (Ret (devices, state), d) ->
     sum_values devices = 1%nat ->
     exists rest,
       trace (snd (refresh w1))
       = trace w1 ++ Ev scan_devices :: Ev (connect_to_device None) :: rest) /\
  (~ reports_success w1 l -> _state w1 = _state w).
Proof.
  intros Hrun.
  pose proof (post_run _ _ _ _ _
                (write_config_returns usb_applications nfc_applications lock_code w)
                Hrun) as [(-> & Hno & Hs) | (-> & Hok & Hs & Hw)]; cbn beta iota.
  - split; [contradiction | auto].
  - split; [|contradiction].
    intros _. split; [exact Hw|]. split; [exact Hs|]. split.
    + destruct Hw as (usb & nfc & lock & c & device0 & info & s & d1 & d2 & d3 & Hw).
      destruct Hw as (_ & _ & _ & _ & _ & _ & _ & ->).
      rewrite existsb_app. cbn. now rewrite !orb_true_r.
    + intros devices state d Hscan Hn.
      now apply refresh_connects_without_state
        with (devices := devices) (state := state) (d := d).
Qed.

(** X4. When the device refuses the configuration: an [ApduError] with
    the status word [VERIFY_FAIL_NO_RETRY] raised by
    [write_device_config] is reported as [wrong_lock_code], a
    [ValueError] with the text [Configuration locked!] as
    [interface_config_locked], and any other exception is raised again;
    in each case the connection is closed and [_state] is left as it
    was. *)
Theorem write_config_device_refusal
  (w : World D) (usb_applications nfc_applications : list string)
  (usb_enabled nfc_enabled : Z) (lock_code : option string) (lock : lock_arg)
  (c : conn) (device0 : YkDevice) (info : DeviceInfo) (s : session)
  (e : exn) (d1 d2 d3 d4 : D) :
  enabled_mask usb_applications 0%Z = Ret usb_enabled ->
  enabled_mask nfc_applications 0%Z = Ret nfc_enabled ->
  (truthy lock_code = None /\
   lock = match lock_code with Some x => LockStr x | None => LockNone end \/
   exists x b, truthy lock_code = Some x /\ a2b_hex x = Ret b /\
               List.length b = 16%nat /\ lock = LockBytes b) ->
  respond (connect_to_device (Some ALL_INTERFACES)) (device w)
  = (Ret (c, device0, info), d1) ->
  respond (ManagementSession c) d1 = (Ret s, d2) ->
  respond (write_device_config s usb_enabled nfc_enabled true lock) d2
  = (Raise e, d3) ->
  respond (connection_close c) d3 = (Ret tt, d4) ->
  exists o w1,
    write_config usb_applications nfc_applications lock_code w = (o, w1) /\
    _state w1 = _state w /\
    trace w1 = trace w ++ [Ev (connect_to_device (Some ALL_INTERFACES));
                           Ev (ManagementSession c);
                           Ev (write_device_config s usb_enabled nfc_enabled true lock);
                           Ev (connection_close c)] /\
    (isinstance e ApduError = true ->
     (exn_sw e = SW_VERIFY_FAIL_NO_RETRY ->
      o = Ret FAILURE_DEFAULT /\ fails_with w1 FAILURE_DEFAULT "wrong_lock_code") /\
     (exn_sw e <> SW_VERIFY_FAIL_NO_RETRY -> o = Raise e)) /\
    (isinstance e ApduError = false ->
     (isinstance e ValueError = true -> exn_str e = "Configuration locked!" ->
      o = Ret FAILURE_DEFAULT /\
      fails_with w1 FAILURE_DEFAULT "interface_config_locked") /\
     (isinstance e ValueError = false \/ exn_str e <> "Configuration locked!" ->
      o = Raise e)).
Proof.
  intros Hu Hn Hlock Ho Hs Hw Hc.
  apply post_outcome.
  unfold write_config, with_open_device, _open_device.
  destruct Hlock as [[Ht ->] | (x & b & Ht & Hx & Hb & ->)].
  - post_steps; post_facts; rewrite <- ?app_assoc; cbn [app].
    all: (split; [reflexivity|]); (split; [reflexivity|]).
    all: repeat match goal with
           | H : Z.eqb _ _ = true |- _ => apply Z.eqb_eq in H
           | H : Z.eqb _ _ = false |- _ => apply Z.eqb_neq in H
           | H : String.eqb _ _ = true |- _ => apply String.eqb_eq in H
           | H : String.eqb _ _ = false |- _ => apply String.eqb_neq in H
           end.
    all: split; [intros HA; split; intros | intros HA; split; [intros | intros [|]]].
    all: try congruence.
    all: try (split; [reflexivity | apply after_failure_fails_with]).
  - apply Nat.eqb_eq in Hb.
    assert (Hb' : negb (List.length b =? 16)%nat = false) by now rewrite Hb.
    post_steps; post_facts; rewrite <- ?app_assoc; cbn [app].
    all: (split; [reflexivity|]); (split; [reflexivity|]).
    all: repeat match goal with
           | H : Z.eqb _ _ = true |- _ => apply Z.eqb_eq in H
           | H : Z.eqb _ _ = false |- _ => apply Z.eqb_neq in H
           | H : String.eqb _ _ = true |- _ => apply String.eqb_eq in H
           | H : String.eqb _ _ = false |- _ => apply String.eqb_neq in H
           end.
    all: split; [intros HA; split; intros | intros HA; split; [intros | intros [|]]].
    all: try congruence.
    all: try (split; [reflexivity | apply after_failure_fails_with]).
Qed.

End ConfigurationMore.

Section ConfigurationEdges.

Context {D : Type} {lib : Yubikit} {dev : Device D}.

Lemma enabled_mask_unknown (apps : list string) (app : string) (enabled : Z) :
  In app apps -> dict_lookup app APPLICATION = None ->
  exists e, enabled_mask apps enabled = Raise e /\ exn_type e = KeyError.
Proof.
  revert enabled. induction apps as [|a r IH]; intros enabled Hin Hmiss; [contradiction|].
  cbn [enabled_mask].
  destruct (dict_lookup a APPLICATION) as [v|] eqn:E.
  - destruct Hin as [-> | Hin]; [congruence|]. now apply IH.
  - eexists. split; reflexivity.
Qed.

(** X5. A name that is not a member of [APPLICATION], in either list,
    makes [write_config] raise [KeyError] before anything else happens:
    no connection is opened, nothing is written, the world is as it was. *)
Theorem write_config_unknown_application
  (w : World D) (usb_applications nfc_applications : list string)
  (lock_code : option string) (app : string) :
  In app (usb_applications ++ nfc_applications) ->
  dict_lookup app APPLICATION = None ->
  exists e,
    write_config usb_applications nfc_applications lock_code w = (Raise e, w) /\
    exn_type e = KeyError.
Proof.
  intros Hin Hmiss. unfold write_config, bind, lift.
  destruct (enabled_mask usb_applications 0) as [usb|e] eqn:Eu.
  - apply in_app_or in Hin as [Hin | Hin].
    + destruct (enabled_mask_unknown _ _ 0%Z Hin Hmiss) as (e & E & _). congruence.
    + destruct (enabled_mask_unknown _ _ 0%Z Hin Hmiss) as (e & -> & He). eauto.
  - exists e. split; [reflexivity|].
    clear Hin. revert Eu. generalize 0%Z.
    induction usb_applications as [|a r IH]; intros z; cbn [enabled_mask]; [discriminate|].
    destruct (dict_lookup a APPLICATION); [apply IH|].
    now intros [= <-].
Qed.

(** The mask of known names: the bitwise or of their values. *)
Lemma enabled_mask_known (apps : list string) (enabled : Z) :
  (forall app, In app apps -> dict_lookup app APPLICATION <> None) ->
  enabled_mask apps enabled
  = Ret (fold_left
           (fun acc app => match dict_lookup app APPLICATION with
                           | Some v => Z.lor acc v
                           | None => acc
                           end) apps enabled).
Proof.
  revert enabled. induction apps as [|a r IH]; intros enabled Hk; [reflexivity|].
  cbn [enabled_mask fold_left].
  destruct (dict_lookup a APPLICATION) eqn:E.
  - apply IH. intros app Hin. apply Hk. now right.
  - exfalso. apply (Hk a); [now left | exact E].
Qed.

End ConfigurationEdges.

Section Scoped.

Context {D : Type} {lib : Yubikit} {dev : Device D}.

(** [with self._open_device(...)]: once the connection is there, closing
    it is the last call, whatever the body does. *)
Lemma with_open_device_closes {A} (interfaces : list USB_INTERFACE)
  (body : conn -> M D A) (w : World D)
  (c : conn) (device0 : YkDevice) (info : DeviceInfo) (d1 : D) :
  respond (connect_to_device (Some interfaces)) (device w)
  = (Ret (c, device0, info), d1) ->
  exists t,
    trace (snd (with_open_device interfaces body w)) = t ++ [Ev (connection_close c)] /\
    store (snd (with_open_device interfaces body w))
    = store (snd (body c (called (connect_to_device (Some interfaces)) d1 w))).
Proof.
  intros Ho. unfold with_open_device, _open_device, bind.
  rewrite (call_run _ _ _ _ Ho). cbn [ret]. unfold with_exit.
  fold (called (connect_to_device (Some interfaces)) d1 w).
  destruct (body c _) as [o w'].
  unfold call. destruct (respond (connection_close c) (device w')) as [[[]|e] d'];
    cbn; eauto.
Qed.

(** X6. [write_config], [piv_change_pin] and [program_otp] close the
    connection they have opened on every path: when [connect_to_device]
    has returned a connection, whether the method returns or raises, the
    last call it has made is [connection_close] of that connection. *)
Theorem connection_closed_last
  (w : World D) (c : conn) (device0 : YkDevice) (info : DeviceInfo) (d1 : D) :
  (forall usb_applications nfc_applications lock_code usb_enabled nfc_enabled,
     enabled_mask usb_applications 0%Z = Ret usb_enabled ->
     enabled_mask nfc_applications 0%Z = Ret nfc_enabled ->
     respond (connect_to_device (Some ALL_INTERFACES)) (device w)
     = (Ret (c, device0, info), d1) ->
     exists t,
       trace (snd (write_config usb_applications nfc_applications lock_code w))
       = t ++ [Ev (connection_close c)]) /\
  (forall old_pin new_pin,
     respond (connect_to_device (Some ALL_INTERFACES)) (device w)
     = (Ret (c, device0, info), d1) ->
     exists t,
       trace (snd (piv_change_pin old_pin new_pin w))
       = t ++ [Ev (connection_close c)]) /\
  (forall slot public_id private_id key upload app_version kb pb qb d0,
     a2b_hex key = Ret kb ->
     respond (modhex_decode public_id) (device w) = (Ret pb, d0) ->
     a2b_hex private_id = Ret qb ->
     respond (connect_to_device (Some [OTP])) d0 = (Ret (c, device0, info), d1) ->
     exists t,
       trace (snd (program_otp slot public_id private_id key upload app_version w))
       = t ++ [Ev (connection_close c)]).
Proof.
  split; [|split].
  - intros usb nfc lock ue ne Hu Hn Ho.
    unfold write_config, bind at 1 2, lift. rewrite Hu, Hn. cbn beta iota.
    match goal with
    | |- context [with_open_device ALL_INTERFACES ?body ?w0] =>
        destruct (with_open_device_closes ALL_INTERFACES body w0 c device0 info d1 Ho)
          as (t & Ht & _)
    end.
    exists t. exact Ht.
  - intros old_pin new_pin Ho. unfold piv_change_pin.
    match goal with
    | |- context [with_open_device ALL_INTERFACES ?body ?w0] =>
        destruct (with_open_device_closes ALL_INTERFACES body w0 c device0 info d1 Ho)
          as (t & Ht & _)
    end.
    exists t. exact Ht.
  - intros slot public_id private_id key upload app_version kb pb qb d0 Hk Hp Hq Ho.
    unfold program_otp, bind at 1 2 3, lift. rewrite Hk.
    rewrite (call_run _ _ _ _ Hp), Hq.
    unfold bind at 1.
    match goal with
    | |- context [with_open_device [OTP] ?body ?w0] =>
        destruct (with_open_device_closes [OTP] body w0 c device0 info d1 Ho)
          as (t & Ht & _);
        destruct (with_open_device [OTP] body w0) as [[[l|u]|e] w'] eqn:E
    end; cbn [snd] in Ht; exists t; cbn; exact Ht.
Qed.

End Scoped.

Section PinChange.

Context {D : Type} {lib : Yubikit} {dev : Device D}.

(** X7. When the device rejects the old PIN ([change_pin] raises
    [InvalidPinError]), [piv_change_pin] asks the device for the tries
    left after the failed attempt and returns a new document
    [{'tries_left': n, 'success': False, 'error_id': 'wrong_pin'}] with
    the answer; the connection is closed afterwards. *)
Theorem piv_change_pin_wrong_pin
  (w : World D) (old_pin new_pin : string)
  (c : conn) (device0 : YkDevice) (info : DeviceInfo) (s : session)
  (e : exn) (n : Z) (d1 d2 d3 d4 d5 : D) :
  respond (connect_to_device (Some ALL_INTERFACES)) (device w)
  = (Ret (c, device0, info), d1) ->
  respond (PivSession c) d1 = (Ret s, d2) ->
  respond (change_pin s old_pin new_pin) d2 = (Raise e, d3) ->
  isinstance e InvalidPinError = true ->
  respond (get_pin_attempts s) d3 = (Ret n, d4) ->
  respond (connection_close c) d4 = (Ret tt, d5) ->
  exists l w1,
    piv_change_pin old_pin new_pin w = (Ret l, w1) /\
    deref w1 l
    = [("tries_left", VInt n); ("success", VBool false);
       ("error_id", VStr "wrong_pin")] /\
    trace w1
    = trace w ++ [Ev (connect_to_device (Some ALL_INTERFACES)); Ev (PivSession c);
                  Ev (change_pin s old_pin new_pin); Ev (get_pin_attempts s);
                  Ev (connection_close c)] /\
    device w1 = d5.
Proof.
  intros Ho Hs Hc He Hn Hx.
  assert (Hpost : post (piv_change_pin old_pin new_pin) w (fun o w1 =>
            exists l, o = Ret l /\
              deref w1 l
              = [("tries_left", VInt n); ("success", VBool false);
                 ("error_id", VStr "wrong_pin")] /\
              trace w1
              = trace w ++ [Ev (connect_to_device (Some ALL_INTERFACES));
                            Ev (PivSession c);
                            Ev (change_pin s old_pin new_pin);
                            Ev (get_pin_attempts s);
                            Ev (connection_close c)] /\
              device w1 = d5)).
  { unfold piv_change_pin, with_open_device, _open_device.
    post_steps.
    eexists. split; [reflexivity|].
    split; [unfold deref in *; cbn [called store]; eassumption|].
    post_facts. rewrite <- !app_assoc. split; reflexivity. }
  apply post_outcome in Hpost as (o & w1 & Hrun & l & -> & Hd & Ht & Hdev).
  eauto 6.
Qed.

Lemma apdu_error_not_invalid_pin (e : exn) :
  isinstance e ApduError = true -> isinstance e InvalidPinError = false.
Proof. unfold isinstance. destruct (exn_type e); vm_compute; congruence. Qed.

(** X8. When [change_pin] raises an [ApduError]: with the status word
    [INCORRECT_PARAMETERS], [piv_change_pin] returns the failure
    [incorrect_parameters] without asking for the tries left; with any
    other status word it asks for them and returns a new document
    [{'success': False, 'tries_left': n}], which has no [error_id]. *)
Theorem piv_change_pin_apdu_error
  (w : World D) (old_pin new_pin : string)
  (c : conn) (device0 : YkDevice) (info : DeviceInfo) (s : session)
  (e : exn) (d1 d2 d3 : D) :
  respond (connect_to_device (Some ALL_INTERFACES)) (device w)
  = (Ret (c, device0, info), d1) ->
  respond (PivSession c) d1 = (Ret s, d2) ->
  respond (change_pin s old_pin new_pin) d2 = (Raise e, d3) ->
  isinstance e ApduError = true ->
  (exn_sw e = SW_INCORRECT_PARAMETERS ->
   forall d4, respond (connection_close c) d3 = (Ret tt, d4) ->
   exists w1,
     piv_change_pin old_pin new_pin w = (Ret FAILURE_DEFAULT, w1) /\
     fails_with w1 FAILURE_DEFAULT "incorrect_parameters" /\
     trace w1
     = trace w ++ [Ev (connect_to_device (Some ALL_INTERFACES)); Ev (PivSession c);
                   Ev (change_pin s old_pin new_pin); Ev (connection_close c)]) /\
  (exn_sw e <> SW_INCORRECT_PARAMETERS ->
   forall n d4 d5,
     respond (get_pin_attempts s) d3 = (Ret n, d4) ->
     respond (connection_close c) d4 = (Ret tt, d5) ->
     exists l w1,
       piv_change_pin old_pin new_pin w = (Ret l, w1) /\
       deref w1 l = [("success", VBool false); ("tries_left", VInt n)] /\
       dict_get (deref w1 l) "error_id" = None /\
       trace w1
       = trace w ++ [Ev (connect_to_device (Some ALL_INTERFACES)); Ev (PivSession c);
                     Ev (change_pin s old_pin new_pin); Ev (get_pin_attempts s);
                     Ev (connection_close c)]).
Proof.
  intros Ho Hs Hc He.
  pose proof (apdu_error_not_invalid_pin e He) as Hi.
  split.
  - intros Hsw d4 Hx. apply Z.eqb_eq in Hsw.
    assert (Hpost : post (piv_change_pin old_pin new_pin) w (fun o w1 =>
              o = Ret FAILURE_DEFAULT /\
              fails_with w1 FAILURE_DEFAULT "incorrect_parameters" /\
              trace w1
              = trace w ++ [Ev (connect_to_device (Some ALL_INTERFACES));
                            Ev (PivSession c);
                            Ev (change_pin s old_pin new_pin);
                            Ev (connection_close c)])).
    { unfold piv_change_pin, with_open_device, _open_device.
      post_steps.
      split; [reflexivity|].
      split; [apply (after_failure_fails_with "incorrect_parameters")|].
      post_facts. now rewrite <- !app_assoc. }
    apply post_outcome in Hpost as (o & w1 & Hrun & -> & Hf & Ht). eauto.
  - intros Hsw n d4 d5 Hn Hx. apply Z.eqb_neq in Hsw.
    assert (Hpost : post (piv_change_pin old_pin new_pin) w (fun o w1 =>
              exists l, o = Ret l /\
                deref w1 l = [("success", VBool false); ("tries_left", VInt n)] /\
                trace w1
                = trace w ++ [Ev (connect_to_device (Some ALL_INTERFACES));
                              Ev (PivSession c);
                              Ev (change_pin s old_pin new_pin);
                              Ev (get_pin_attempts s);
                              Ev (connection_close c)])).
    { unfold piv_change_pin, with_open_device, _open_device.
      post_steps.
      eexists. split; [reflexivity|].
      split; [unfold deref in *; cbn [called store]; eassumption|].
      post_facts. now rewrite <- !app_assoc. }
    apply post_outcome in Hpost as (o & w1 & Hrun & l & -> & Hd & Ht).
    exists l, w1. split; [exact Hrun|]. split; [exact Hd|].
    split; [now rewrite Hd | exact Ht].
Qed.

End PinChange.

Section OtpSlot.

Context {D : Type} {lib : Yubikit} {dev : Device D}.

(** X9. When the upload is asked for and [prepare_upload_key] raises
    [PrepareUploadFailed], [program_otp] returns a new document
    [{'upload_errors': [...], 'success': False, 'error_id':
    'upload_failed'}] with the names of the errors, and the slot is not
    touched: no OTP session is made and [put_configuration] is not
    called. *)
Theorem program_otp_upload_failed
  (w : World D) (slot : Z) (public_id private_id key app_version : string)
  (kb pb qb : bytes) (info : doc) (serial0 : value)
  (c : conn) (device0 : YkDevice) (info0 : DeviceInfo) (e : exn)
  (d0 d1 d2 d3 : D) :
  a2b_hex key = Ret kb ->
  respond (modhex_decode public_id) (device w) = (Ret pb, d0) ->
  a2b_hex private_id = Ret qb ->
  respond (connect_to_device (Some [OTP])) d0 = (Ret (c, device0, info0), d1) ->
  _dev_info w = Some info ->
  dict_get info "serial" = Some serial0 ->
  respond (prepare_upload_key kb pb qb serial0 ("ykman-qt/" ++ app_version)) d1
  = (Raise e, d2) ->
  isinstance e PrepareUploadFailed = true ->
  respond (connection_close c) d2 = (Ret tt, d3) ->
  exists l w1,
    program_otp slot public_id private_id key true app_version w = (Ret l, w1) /\
    deref w1 l
    = [("upload_errors", VList (map VStr (exn_errors e)));
       ("success", VBool false); ("error_id", VStr "upload_failed")] /\
    trace w1
    = trace w ++ [Ev (modhex_decode public_id); Ev (connect_to_device (Some [OTP]));
                  Ev (prepare_upload_key kb pb qb serial0 ("ykman-qt/" ++ app_version));
                  Ev (connection_close c)].
Proof.
  intros Hk Hp Hq Ho Hi Hser Hup He Hx.
  assert (Hpost : post (program_otp slot public_id private_id key true app_version) w
            (fun o w1 =>
               exists l, o = Ret l /\
                 deref w1 l
                 = [("upload_errors", VList (map VStr (exn_errors e)));
                    ("success", VBool false); ("error_id", VStr "upload_failed")] /\
                 trace w1
                 = trace w ++ [Ev (modhex_decode public_id);
                               Ev (connect_to_device (Some [OTP]));
                               Ev (prepare_upload_key kb pb qb serial0
                                     ("ykman-qt/" ++ app_version));
                               Ev (connection_close c)])).
  { unfold program_otp, with_open_device, _open_device, dev_info_serial.
    post_steps.
    eexists. split; [reflexivity|].
    split; [unfold deref in *; cbn [called store]; eassumption|].
    post_facts. now rewrite <- !app_assoc. }
  apply post_outcome in Hpost as (o & w1 & Hrun & l & -> & Hd & Ht). eauto.
Qed.

(** X10. Without upload, when the device takes the configuration,
    [program_otp] returns a new document
    [{'upload_url': None, 'success': True}]; [prepare_upload_key] is not
    called, and the configuration is written with the decoded public id,
    private id and key. *)
Theorem program_otp_programs_slot
  (w : World D) (slot : Z) (public_id private_id key app_version : string)
  (kb pb qb : bytes)
  (c : conn) (device0 : YkDevice) (info0 : DeviceInfo) (s : session)
  (d0 d1 d2 d3 d4 d5 : D) :
  a2b_hex key = Ret kb ->
  respond (modhex_decode public_id) (device w) = (Ret pb, d0) ->
  a2b_hex private_id = Ret qb ->
  respond (connect_to_device (Some [OTP])) d0 = (Ret (c, device0, info0), d1) ->
  respond (YubiOtpSession c) d1 = (Ret s, d2) ->
  respond (YubiOtpSlotConfiguration pb qb kb) d2 = (Ret tt, d3) ->
  respond (put_configuration s slot pb qb kb) d3 = (Ret tt, d4) ->
  respond (connection_close c) d4 = (Ret tt, d5) ->
  exists l w1,
    program_otp slot public_id private_id key false app_version w = (Ret l, w1) /\
    deref w1 l = [("upload_url", VNone); ("success", VBool true)] /\
    trace w1
    = trace w ++ [Ev (modhex_decode public_id); Ev (connect_to_device (Some [OTP]));
                  Ev (YubiOtpSession c); Ev (YubiOtpSlotConfiguration pb qb kb);
                  Ev (put_configuration s slot pb qb kb);
                  Ev (connection_close c)].
Proof.
  intros Hk Hp Hq Ho Hs Hcfg Hput Hx.
  assert (Hpost : post (program_otp slot public_id private_id key false app_version) w
            (fun o w1 =>
               exists l, o = Ret l /\
                 deref w1 l = [("upload_url", VNone); ("success", VBool true)] /\
                 trace w1
                 = trace w ++ [Ev (modhex_decode public_id);
                               Ev (connect_to_device (Some [OTP]));
                               Ev (YubiOtpSession c);
                               Ev (YubiOtpSlotConfiguration pb qb kb);
                               Ev (put_configuration s slot pb qb kb);
                               Ev (connection_close c)])).
  { unfold program_otp, with_open_device, _open_device.
    post_steps.
    eexists. split; [reflexivity|].
    split; [unfold deref in *; cbn [called store]; eassumption|].
    post_facts. now rewrite <- !app_assoc. }
  apply post_outcome in Hpost as (o & w1 & Hrun & l & -> & Hd & Ht). eauto.
Qed.

(** X11. When [put_configuration] raises, with or without upload: a
    [CommandError] (an [ApduError] is one) is reported by [program_otp]
    as the failure [write error], any other exception is raised to the
    caller; the connection is closed in both cases.  With upload, the key
    has been uploaded by then: [prepare_upload_key] had returned before
    the slot was written, and the failure that is reported does not tell
    so. *)
Theorem program_otp_write_error
  (w : World D) (slot : Z) (public_id private_id key app_version : string)
  (upload : bool) (kb pb qb : bytes) (uploaded : list Event)
  (c : conn) (device0 : YkDevice) (info0 : DeviceInfo) (s : session) (e : exn)
  (d0 d1 d1' d2 d3 d4 d5 : D) :
  a2b_hex key = Ret kb ->
  respond (modhex_decode public_id) (device w) = (Ret pb, d0) ->
  a2b_hex private_id = Ret qb ->
  respond (connect_to_device (Some [OTP])) d0 = (Ret (c, device0, info0), d1) ->
  (upload = false /\ uploaded = [] /\ d1' = d1 \/
   upload = true /\
   exists info serial0 url,
     _dev_info w = Some info /\
     dict_get info "serial" = Some serial0 /\
     respond (prepare_upload_key kb pb qb serial0 ("ykman-qt/" ++ app_version)) d1
     = (Ret url, d1') /\
     uploaded
     = [Ev (prepare_upload_key kb pb qb serial0 ("ykman-qt/" ++ app_version))]) ->
  respond (YubiOtpSession c) d1' = (Ret s, d2) ->
  respond (YubiOtpSlotConfiguration pb qb kb) d2 = (Ret tt, d3) ->
  respond (put_configuration s slot pb qb kb) d3 = (Raise e, d4) ->
  respond (connection_close c) d4 = (Ret tt, d5) ->
  exists o w1,
    program_otp slot public_id private_id key upload app_version w = (o, w1) /\
    (isinstance e CommandError = true ->
     o = Ret FAILURE_DEFAULT /\ fails_with w1 FAILURE_DEFAULT "write error") /\
    (isinstance e CommandError = false -> o = Raise e) /\
    trace w1
    = trace w ++ [Ev (modhex_decode public_id); Ev (connect_to_device (Some [OTP]))]
        ++ uploaded
        ++ [Ev (YubiOtpSession c); Ev (YubiOtpSlotConfiguration pb qb kb);
            Ev (put_configuration s slot pb qb kb); Ev (connection_close c)].
Proof.
  intros Hk Hp Hq Ho Hup Hs Hcfg Hput Hx.
  apply post_outcome.
  unfold program_otp, with_open_device, _open_device, dev_info_serial.
  destruct Hup as [(-> & -> & ->) | (-> & info & serial0 & url & Hi & Hser & Hup & ->)].
  - post_steps.
    + split; [intros _; split; [reflexivity | apply after_failure_fails_with]|].
      split; [congruence|]. post_facts. now rewrite <- !app_assoc.
    + split; [congruence|]. split; [reflexivity|]. post_facts.
      now rewrite <- !app_assoc.
  - post_steps.
    + split; [intros _; split; [reflexivity | apply after_failure_fails_with]|].
      split; [congruence|]. post_facts. now rewrite <- !app_assoc.
    + split; [congruence|]. split; [reflexivity|]. post_facts.
      now rewrite <- !app_assoc.
Qed.

(** X12. When the upload is asked for before any [refresh] has filled
    [_dev_info], [program_otp] raises [TypeError] from
    [self._dev_info['serial']]: nothing is uploaded and the slot is not
    written, and the connection it had opened is closed. *)
Theorem program_otp_upload_without_dev_info
  (w : World D) (slot : Z) (public_id private_id key app_version : string)
  (kb pb qb : bytes)
  (c : conn) (device0 : YkDevice) (info0 : DeviceInfo) (d0 d1 d2 : D) :
  a2b_hex key = Ret kb ->
  respond (modhex_decode public_id) (device w) = (Ret pb, d0) ->
  a2b_hex private_id = Ret qb ->
  respond (connect_to_device (Some [OTP])) d0 = (Ret (c, device0, info0), d1) ->
  _dev_info w = None ->
  respond (connection_close c) d1 = (Ret tt, d2) ->
  exists e w1,
    program_otp slot public_id private_id key true app_version w = (Raise e, w1) /\
    exn_type e = TypeError /\
    trace w1
    = trace w ++ [Ev (modhex_decode public_id); Ev (connect_to_device (Some [OTP]));
                  Ev (connection_close c)] /\
    store w1 = store w.
Proof.
  intros Hk Hp Hq Ho Hi Hx.
  assert (Hpost : post (program_otp slot public_id private_id key true app_version) w
            (fun o w1 =>
               exists e, o = Raise e /\ exn_type e = TypeError /\
                 trace w1
                 = trace w ++ [Ev (modhex_decode public_id);
                               Ev (connect_to_device (Some [OTP]));
                               Ev (connection_close c)] /\
                 store w1 = store w)).
  { unfold program_otp, with_open_device, _open_device, dev_info_serial.
    post_steps.
    all: try match goal with
             | K : isinstance (new_exn _ _) _ = true |- _ => discriminate K
             end.
    eexists. split; [reflexivity|]. split; [reflexivity|].
    post_facts. rewrite <- !app_assoc. split; reflexivity. }
  apply post_outcome in Hpost as (o & w1 & Hrun & e & -> & He & Ht & Hst). eauto 6.
Qed.

End OtpSlot.

Section IdentityMore.

Context {D : Type} {lib : Yubikit} {dev : Device D}.

(** X13. When the scan finds one device in a state other than the cached
    one and the connection cannot be used ([connect_to_device] raises, or
    it returns and [connection.close()] raises), [refresh] returns the
    failure [no_device] and forgets what it knew: [_state] and
    [_dev_info] are [None] afterwards. *)
Theorem refresh_connect_failure
  (w : World D) (devices : list (Z * nat)) (state : Z) (d1 : D) :
  respond scan_devices (device w) = (Ret (devices, state), d1) ->
  sum_values devices = 1%nat ->
  state_ne state (_state w) = true ->
  (forall e d2,
     respond (connect_to_device None) d1 = (Raise e, d2) ->
     exists w1,
       refresh w = (Ret FAILURE_DEFAULT, w1) /\
       fails_with w1 FAILURE_DEFAULT "no_device" /\
       _state w1 = None /\ _dev_info w1 = None /\
       trace w1 = trace w ++ [Ev scan_devices; Ev (connect_to_device None)]) /\
  (forall c device0 info e d2 d3,
     respond (connect_to_device None) d1 = (Ret (c, device0, info), d2) ->
     respond (connection_close c) d2 = (Raise e, d3) ->
     exists w1,
       refresh w = (Ret FAILURE_DEFAULT, w1) /\
       fails_with w1 FAILURE_DEFAULT "no_device" /\
       _state w1 = None /\ _dev_info w1 = None /\
       trace w1 = trace w ++ [Ev scan_devices; Ev (connect_to_device None);
                              Ev (connection_close c)]).
Proof.
  intros Hscan Hn Hne.
  assert (Hn' : negb (sum_values devices =? 1)%nat = false).
  { apply Nat.eqb_eq in Hn. now rewrite Hn. }
  split.
  - intros e d2 Hc.
    assert (Hpost : post refresh w (fun o w1 =>
              o = Ret FAILURE_DEFAULT /\
              fails_with w1 FAILURE_DEFAULT "no_device" /\
              _state w1 = None /\ _dev_info w1 = None /\
              trace w1 = trace w ++ [Ev scan_devices; Ev (connect_to_device None)])).
    { unfold refresh. post_steps.
      split; [reflexivity|]. split; [apply after_failure_fails_with|].
      post_facts. rewrite <- !app_assoc. repeat split. }
    apply post_outcome in Hpost as (o & w1 & Hrun & -> & H). eauto.
  - intros c device0 info e d2 d3 Hc Hx.
    assert (Hpost : post refresh w (fun o w1 =>
              o = Ret FAILURE_DEFAULT /\
              fails_with w1 FAILURE_DEFAULT "no_device" /\
              _state w1 = None /\ _dev_info w1 = None /\
              trace w1 = trace w ++ [Ev scan_devices; Ev (connect_to_device None);
                                     Ev (connection_close c)])).
    { unfold refresh. post_steps.
      split; [reflexivity|]. split; [apply after_failure_fails_with|].
      post_facts. rewrite <- !app_assoc. repeat split. }
    apply post_outcome in Hpost as (o & w1 & Hrun & -> & H). eauto.
Qed.

(** [build_dev_info] raises exactly when [APPLICATION] has members and the
    USB entry is missing from the enabled or the supported applications. *)
Lemma build_dev_info_raises (device0 : YkDevice) (info : DeviceInfo) :
  (exists e, build_dev_info device0 info = Raise e) <->
  APPLICATION <> [] /\
  (enabled_applications info USB = None \/ supported_applications info USB = None).
Proof.
  unfold build_dev_info, names_in_get.
  destruct (enabled_applications info USB), (supported_applications info USB),
    APPLICATION; split.
  all: try (intros [e He]; discriminate He).
  all: try (intros [Hne [Hx | Hx]]; congruence).
  all: try (intros _; split; [discriminate | auto]).
  all: eauto.
Qed.

(** X14. [refresh] stores the scan state before it has the device
    information.  When reading the information raises after the
    connection has been opened and closed, [refresh] raises with the new
    state in [_state] and the old [_dev_info]; the next [refresh], if the
    scan finds the same, opens no connection and returns a success
    document with that old information. *)
Theorem refresh_after_info_failure
  (w : World D) (devices : list (Z * nat)) (state : Z)
  (c : conn) (device0 : YkDevice) (info : DeviceInfo) (e : exn)
  (d1 d2 d3 d4 : D) :
  respond scan_devices (device w) = (Ret (devices, state), d1) ->
  sum_values devices = 1%nat ->
  state_ne state (_state w) = true ->
  respond (connect_to_device None) d1 = (Ret (c, device0, info), d2) ->
  respond (connection_close c) d2 = (Ret tt, d3) ->
  build_dev_info device0 info = Raise e ->
  respond scan_devices d3 = (Ret (devices, state), d4) ->
  exists w1 l w2,
    refresh w = (Raise e, w1) /\
    _state w1 = Some state /\ _dev_info w1 = _dev_info w /\
    refresh w1 = (Ret l, w2) /\
    deref w2 l = [("dev", opt_dict (_dev_info w)); ("success", VBool true)] /\
    trace w2 = trace w1 ++ [Ev scan_devices].
Proof.
  intros Hscan Hn Hne Hc Hx Hb Hscan2.
  assert (Hn' : negb (sum_values devices =? 1)%nat = false).
  { apply Nat.eqb_eq in Hn. now rewrite Hn. }
  assert (Hpost : post refresh w (fun o w1 =>
            o = Raise e /\ _state w1 = Some state /\ _dev_info w1 = _dev_info w /\
            device w1 = d3 /\ store w1 = store w)).
  { unfold refresh. post_steps. repeat split. }
  apply post_outcome in Hpost as (o & w1 & Hrun & -> & Hs & Hi & Hd & Hst).
  assert (Hsame : state_ne state (Some state) = false).
  { unfold state_ne. now rewrite Z.eqb_refl. }
  assert (Hpost : post refresh w1 (fun o w2 =>
            exists l, o = Ret l /\
              deref w2 l = [("dev", opt_dict (_dev_info w)); ("success", VBool true)] /\
              trace w2 = trace w1 ++ [Ev scan_devices])).
  { unfold refresh. rewrite <- Hd in Hscan2.
    apply post_bind, post_call. intros o d Hcall.
    rewrite Hscan2 in Hcall. injection Hcall as <- <-. cbn beta iota.
    rewrite Hn'.
    apply post_bind, post_get_state. cbn beta iota.
    cbn [called _state]. rewrite Hs, Hsame.
    apply post_bind, post_ret. cbn beta iota.
    apply post_bind, post_get_dev_info. cbn beta iota.
    cbn [called _dev_info]. rewrite Hi.
    post_steps.
    eexists. split; [reflexivity|].
    split; [unfold deref in *; cbn [called store] in *; eassumption|].
    post_facts. reflexivity. }
  apply post_outcome in Hpost as (o & w2 & Hrun2 & l & -> & Hdoc & Ht).
  exists w1, l, w2. auto 10.
Qed.

(** X15. In the device information that [refresh] builds, the entry
    [can_write_config] is [None] when the device reports no version, and
    otherwise tells whether the major version is at least 5 (for a
    version whose minor and patch numbers are not negative). *)
Theorem can_write_config_from_major
  (device0 : YkDevice) (info : DeviceInfo) (d : doc) :
  build_dev_info device0 info = Ret d ->
  (version info = None -> dict_get d "can_write_config" = Some VNone) /\
  (forall a b c,
     version info = Some (a, b, c) -> (0 <= b)%Z -> (0 <= c)%Z ->
     dict_get d "can_write_config" = Some (VBool (5 <=? a)%Z)).
Proof.
  unfold build_dev_info.
  destruct (names_in_get APPLICATION (enabled_applications info USB)) as [ue|];
    [|discriminate].
  destruct (names_in_get APPLICATION (supported_applications info USB)) as [us|];
    [|discriminate].
  intros [= <-]. split.
  - intros ->. reflexivity.
  - intros a b c -> Hb Hc. cbn. f_equal. f_equal.
    unfold version_ge_5.
    destruct (5 <=? a)%Z eqn:E5.
    + apply Z.leb_le in E5.
      destruct (5 <? a)%Z eqn:E; [reflexivity|].
      apply Z.ltb_ge in E. assert (a = 5%Z) by lia. subst a. cbn.
      destruct (0 <? b)%Z eqn:Eb; [reflexivity|].
      apply Z.ltb_ge in Eb. assert (b = 0%Z) by lia. subst b. cbn.
      now apply Z.leb_le.
    + apply Z.leb_gt in E5.
      assert (H1 : (5 <? a)%Z = false) by (apply Z.ltb_ge; lia).
      assert (H2 : (a =? 5)%Z = false) by (apply Z.eqb_neq; lia).
      now rewrite H1, H2.
Qed.

End IdentityMore.

(** X16. [a2b_hex] returns exactly on the strings of hexadecimal digits
    of even length, with one byte for every two digits; on every other
    string it raises an exception that is a [ValueError]. *)
Theorem a2b_hex_accepts (s : string) :
  ((exists b, a2b_hex s = Ret b) <->
   Nat.even (String.length s) = true /\
   forallb is_hex_digit (list_ascii_of_string s) = true) /\
  (forall b, a2b_hex s = Ret b -> String.length s = (2 * List.length b)%nat) /\
  (forall e, a2b_hex s = Raise e -> isinstance e ValueError = true).
Proof.
  split; [split|split].
  - intros [b Hb]. apply a2b_hex_returns in Hb as [Hd Hl].
    split; [|exact Hd]. rewrite Hl. apply Nat.even_spec. now exists (List.length b).
  - intros [He Hd]. destruct (a2b_hex_digits s Hd) as (b & Hb & _).
    + rewrite <- Nat.negb_even, He. reflexivity.
    + eauto.
  - intros b Hb. now apply a2b_hex_returns in Hb.
  - apply a2b_hex_raises.
Qed.

(** ** The default documents stay clean *)

Ltac clean_facts :=
  repeat match goal with
         | H : success_default (store ?x) = _ |- _ =>
             is_var x; cbn [called after_failure store] in H; rewrite ?H; clear H
         | H : failure_default (store ?x) = _ |- _ =>
             is_var x; cbn [called after_failure store] in H; rewrite ?H; clear H
         end.

Ltac clean_done :=
  unfold defaults_clean, failure_default_clean, success_default_clean in *;
  cbn [called after_failure store success_default failure_default];
  clean_facts;
  cbn [called after_failure store success_default failure_default];
  match goal with
  | H : (_ \/ _) /\ (_ \/ _) |- _ =>
      let Ef := fresh "Ef" in
      let Es := fresh "Es" in
      destruct H as [[Ef | (? & ? & Ef)] [Es | Es]];
      rewrite ?Ef, ?Es; cbn; eauto 6
  end.

Section Defaults.

Context {D : Type} {lib : Yubikit} {dev : Device D}.

Lemma keeps_defaults_post {A} (m : M D A) :
  (forall w, defaults_clean (store w) ->
             post m w (fun _ w' => defaults_clean (store w'))) ->
  keeps_defaults m.
Proof. intros H w Hw. exact (H w Hw). Qed.

(** X17. The two default documents are clean when the module is loaded
    (both empty), and [refresh], [write_config], [program_otp],
    [piv_change_pin], [_piv_verify_pin], [_piv_ensure_authenticated] keep
    them clean for all arguments and all answers of the device, as does
    [catch_error] around a method that keeps them clean.  As long as they
    are clean, [success()] returns exactly [{'success': True}] and
    [failure(err_id)] exactly [{'success': False, 'error_id': err_id}]. *)
Theorem defaults_stay_clean :
  defaults_clean module_heap /\
  keeps_defaults (refresh (D := D)) /\
  (forall usb_applications nfc_applications lock_code,
     keeps_defaults (write_config (D := D) usb_applications nfc_applications lock_code)) /\
  (forall slot public_id private_id key upload app_version,
     keeps_defaults
       (program_otp (D := D) slot public_id private_id key upload app_version)) /\
  (forall old_pin new_pin, keeps_defaults (piv_change_pin (D := D) old_pin new_pin)) /\
  (forall s pin, keeps_defaults (_piv_verify_pin (D := D) s pin)) /\
  (forall s pin mgm_key_hex,
     keeps_defaults (_piv_ensure_authenticated (D := D) s pin mgm_key_hex)) /\
  (forall f : M D loc, keeps_defaults f -> keeps_defaults (catch_error f)) /\
  (forall (w : World D) (err_id : value),
     defaults_clean (store w) ->
     deref (snd (success None w)) SUCCESS_DEFAULT = [("success", VBool true)] /\
     deref (snd (failure err_id None w)) FAILURE_DEFAULT
     = [("success", VBool false); ("error_id", err_id)]).
Proof.
  split; [split; left; reflexivity|].
  split.
  { apply keeps_defaults_post. intros w Hw. unfold refresh.
    post_steps; clean_done. }
  split.
  { intros. apply keeps_defaults_post. intros w Hw.
    unfold write_config, with_open_device, _open_device.
    post_steps; clean_done. }
  split.
  { intros. apply keeps_defaults_post. intros w Hw.
    unfold program_otp, with_open_device, _open_device, dev_info_serial.
    post_steps; clean_done. }
  split.
  { intros. apply keeps_defaults_post. intros w Hw.
    unfold piv_change_pin, with_open_device, _open_device.
    post_steps; clean_done. }
  split.
  { intros. apply keeps_defaults_post. intros w Hw.
    unfold _piv_verify_pin.
    post_steps; clean_done. }
  split.
  { intros. apply keeps_defaults_post. intros w Hw.
    unfold _piv_ensure_authenticated, _piv_verify_pin.
    post_steps; clean_done. }
  split.
  { intros f Hf. apply keeps_defaults_post. intros w Hw.
    unfold catch_error, unknown_failure.
    apply post_try_except. unfold post at 1.
    specialize (Hf w Hw). clear Hw.
    destruct (f w) as [[l|e] w1]; cbn [fst snd] in *.
    - exact Hf.
    - post_steps; clean_done. }
  intros w err_id Hw. unfold deref. cbn.
  unfold defaults_clean, failure_default_clean, success_default_clean in Hw.
  destruct Hw as [[Ef | (b & e & Ef)] [Es | Es]]; rewrite Ef, Es; split; reflexivity.
Qed.

End Defaults.

(** ** What the caller receives *)









Lemma string_app_assoc (a b c : string) :
  ((a ++ b) ++ c = a ++ (b ++ c))%string.
Proof. induction a as [|x a IH]; cbn; [reflexivity | now rewrite IH]. Qed.

Section Public.

Context {D : Type} {lib : Yubikit} {dev : Device D}.

(** X19. The text a public method hands to its caller after an
    exception, when the default documents are clean: for a [ValueError]
    it is the text of [{'success': False, 'error_id':
    'open_device_failed'}]; for an [Exception] that [catch_error] does not
    know it holds the escaped text of the exception and [null] for the
    error id. *)
Theorem public_text_after_exception
  (f : M D loc) (w w1 : World D) (e : exn) :
  f w = (Raise e, w1) ->
  (isinstance e ValueError = true ->
   failure_default_clean (store w1) ->
   exists w2,
     public f w
     = (Ret ("{" ++ json_string "success" ++ ": false, "
                 ++ json_string "error_id" ++ ": "
                 ++ json_string "open_device_failed" ++ "}")%string, w2) /\
     trace w2 = trace w1) /\
  (isinstance e Exception = true ->
   isinstance e ValueError = false ->
   isinstance e EstablishContextException = false ->
   exn_str e <> "Incorrect padding" ->
   exists w2,
     public f w
     = (Ret ("{" ++ json_string "error_message" ++ ": " ++ json_string (exn_str e)
                 ++ ", " ++ json_string "success" ++ ": false, "
                 ++ json_string "error_id" ++ ": null}")%string, w2) /\
     trace w2 = trace w1).
Proof.
  intros Hf. split.
  - intros He Hc. unfold public, as_json.
    rewrite (catch_error_value_error_run f w w1 e Hf He).
    exists (after_failure (VStr "open_device_failed") w1).
    split; [|reflexivity].
    unfold deref. cbn [after_failure store heap_get failure_default].
    now rewrite failure_doc_clean.
  - intros He Hv Hp Hs. unfold public, as_json, catch_error, try_except.
    rewrite Hf, Hp, Hv, He. apply String.eqb_neq in Hs. rewrite Hs.
    destruct (unknown_failure_run e w1) as (w2 & Hr & Hd & _ & _ & Ht & _).
    rewrite Hr, Hd. exists w2. split; [|exact Ht].
    cbn [dumps map join]. now rewrite !string_app_assoc.
Qed.

End Public.

(** ** Hexadecimal text *)

Lemma hex_of_byte_decodes (b : byte) (r : list ascii) :
  unhexlify (list_ascii_of_string (hex_of_byte b) ++ r)
  = match unhexlify r with Some bs => Some (b :: bs) | None => None end.
Proof. destruct b; reflexivity. Qed.

Lemma hex_of_byte_digits (b : byte) :
  forallb is_hex_digit (list_ascii_of_string (hex_of_byte b)) = true /\
  forallb is_ascii (list_ascii_of_string (hex_of_byte b)) = true.
Proof. destruct b; split; reflexivity. Qed.

Lemma list_ascii_app (a b : string) :
  list_ascii_of_string (a ++ b) = list_ascii_of_string a ++ list_ascii_of_string b.
Proof. induction a as [|c a IH]; cbn; [reflexivity | now rewrite IH]. Qed.

Lemma b2a_hex_length (data : bytes) :
  String.length (b2a_hex data) = (2 * List.length data)%nat.
Proof.
  induction data as [|b r IH]; [reflexivity|].
  cbn [b2a_hex]. unfold hex_of_byte. cbn [append String.length List.length].
  rewrite IH. lia.
Qed.

(** [a2b_hex] undoes [b2a_hex]: the text made of any bytes decodes to
    these bytes, it has two characters for each byte, and the text of 24
    bytes is a management key as [_piv_ensure_authenticated] wants it. *)
Lemma b2a_hex_round_trip (data : bytes) :
  a2b_hex (b2a_hex data) = Ret data /\
  String.length (b2a_hex data) = (2 * List.length data)%nat /\
  (List.length data = 24%nat -> well_formed_mgm_key (b2a_hex data) = true).
Proof.
  assert (Hd : forallb is_hex_digit (list_ascii_of_string (b2a_hex data)) = true /\
               forallb is_ascii (list_ascii_of_string (b2a_hex data)) = true /\
               unhexlify (list_ascii_of_string (b2a_hex data)) = Some data).
  { induction data as [|b r (IH1 & IH2 & IH3)]; [repeat split|].
    cbn [b2a_hex]. rewrite list_ascii_app, !forallb_app, IH1, IH2.
    destruct (hex_of_byte_digits b) as [-> ->].
    rewrite hex_of_byte_decodes, IH3. repeat split. }
  destruct Hd as (H1 & H2 & H3).
  split; [|split].
  - unfold a2b_hex. rewrite H2. cbn [negb].
    rewrite length_list_ascii, b2a_hex_length.
    replace (Nat.odd (2 * List.length data)) with false.
    + now rewrite H3.
    + symmetry. rewrite <- Nat.negb_even, Nat.even_mul. reflexivity.
  - apply b2a_hex_length.
  - intros Hl. unfold well_formed_mgm_key.
    now rewrite b2a_hex_length, Hl, H1.
Qed.

Section GeneratedKey.

Context {D : Type} {lib : Yubikit} {dev : Device D}.

(** X20. The text [piv_generate_random_mgm_key] makes with [b2a_hex] of
    the 24 bytes of a new management key is a key that
    [_piv_ensure_authenticated] takes: given back as [mgm_key_hex] to a
    key without protected management key, it is decoded to the same 24
    bytes, and [authenticate] is called with them. *)
Theorem generated_mgm_key_accepted
  (data : bytes) (w : World D) (s : session) (pivman : PivmanData)
  (pin : option string) (o : outcome unit) (d d' : D) :
  List.length data = 24%nat ->
  respond (get_pivman_data s) (device w) = (Ret pivman, d) ->
  has_protected_key pivman = false ->
  respond (authenticate s data) d = (o, d') ->
  well_formed_mgm_key (b2a_hex data) = true /\
  a2b_hex (b2a_hex data) = Ret data /\
  _piv_ensure_authenticated s pin (Some (b2a_hex data)) w
  = (Ret None,
     mkWorld d' (store w)
       (trace w ++ [Ev (get_pivman_data s); Ev (authenticate s data)])
       (_state w) (_dev_info w)).
Proof.
  intros Hl H Hmode Ha.
  destruct (b2a_hex_round_trip data) as (Hr & Hlen & Hwf).
  split; [now apply Hwf|]. split; [exact Hr|].
  assert (Hne : b2a_hex data <> "").
  { intros E. rewrite E in Hlen. rewrite Hl in Hlen. discriminate Hlen. }
  unfold _piv_ensure_authenticated, bind.
  rewrite (call_run _ _ _ _ H), Hmode, (truthy_some _ Hne), Hlen, Hl.
  cbn [Nat.mul Nat.add Nat.eqb negb].
  unfold try_except, bind, lift. rewrite Hr.
  unfold ret at 1.
  match goal with |- context [call ?c ?w0] => rewrite (call_run c w0 o d' Ha) end.
  cbn. rewrite <- app_assoc. destruct o as [[]|e]; reflexivity.
Qed.

End GeneratedKey.

(** ** Certificates as the GUI lists them *)


(** ** The properties above on the simulated keys *)

(** X1 on [program_otp] asked to upload before any [refresh]. *)
Lemma catch_error_unknown_failure_witness :
  let f := program_otp (D := Sim.Key) 1%Z "cccccccccccc" "010203040506"
             "000102030405060708090a0b0c0d0e0f" true "unknown" in
  let w := module_world Sim.key in
  let w1 := snd (f w) in
  let e := new_exn TypeError "'NoneType' object is not subscriptable" in
  exists l w2,
    catch_error f w = (Ret l, w2) /\
    l <> SUCCESS_DEFAULT /\ l <> FAILURE_DEFAULT /\
    deref w2 l
    = [("error_message", VStr (exn_str e)); ("success", VBool false);
       ("error_id", VNone)] /\
    success_default (store w2) = success_default (store w1) /\
    failure_default (store w2) = failure_default (store w1) /\
    trace w2 = trace w1.
Proof.
  intros f w w1 e.
  apply (catch_error_unknown_failure f w w1 e
           eq_refl eq_refl eq_refl eq_refl).
  discriminate.
Defined.

(** X3 on a configuration written with a lock code of 16 bytes. *)
Lemma write_config_resets_state_witness :
  let w := mkWorld Sim.key module_heap [] (Some 11%Z) None in
  let usb_applications := ["PIV"] in
  let nfc_applications := ["OTP"] in
  let lock_code := Some Rig.zeros32 in
  let w1 := snd (write_config usb_applications nfc_applications lock_code w) in
  let l := SUCCESS_DEFAULT in
  reports_success w1 l /\
  (reports_success w1 l ->
   written_through usb_applications nfc_applications lock_code w w1 /\
   _state w1 = None /\
   existsb is_write_device_config (trace w1) = true /\
   forall devices state d,
     respond scan_devices (device w1) = (Ret (devices, state), d) ->
     sum_values devices = 1%nat ->
     exists rest,
       trace (snd (refresh w1))
       = trace w1 ++ Ev scan_devices :: Ev (connect_to_device None) :: rest) /\
  (~ reports_success w1 l -> _state w1 = _state w).
Proof.
  intros w usb_applications nfc_applications lock_code w1 l.
  split; [reflexivity|].
  apply (write_config_resets_state (lib := Sim.yubikit) (dev := Sim.key_device)
           usb_applications nfc_applications lock_code w w1 l eq_refl).
Defined.

(** X4 on a key that answers the write with [VERIFY_FAIL_NO_RETRY]. *)
Lemma write_config_device_refusal_witness :
  let k := Rig.mkKey Sim.key (Rig.write_refused Rig.verify_fail_no_retry) in
  let w := mkWorld k module_heap [] (Some 11%Z) None in
  let usb_applications := ["PIV"] in
  let nfc_applications := @nil string in
  let usb_enabled := 0x10%Z in
  let nfc_enabled := 0%Z in
  let lock_code := Some Rig.zeros32 in
  let lock := LockBytes (Sim.zeros 16) in
  let c := 0%nat in
  let s := 0%nat in
  let e := Rig.verify_fail_no_retry in
  exists o w1,
    write_config usb_applications nfc_applications lock_code w = (o, w1) /\
    _state w1 = _state w /\
    trace w1 = trace w ++ [Ev (connect_to_device (Some ALL_INTERFACES));
                           Ev (ManagementSession c);
                           Ev (write_device_config s usb_enabled nfc_enabled true lock);
                           Ev (connection_close c)] /\
    (isinstance e ApduError = true ->
     (exn_sw e = SW_VERIFY_FAIL_NO_RETRY ->
      o = Ret FAILURE_DEFAULT /\ fails_with w1 FAILURE_DEFAULT "wrong_lock_code") /\
     (exn_sw e <> SW_VERIFY_FAIL_NO_RETRY -> o = Raise e)) /\
    (isinstance e ApduError = false ->
     (isinstance e ValueError = true -> exn_str e = "Configuration locked!" ->
      o = Ret FAILURE_DEFAULT /\
      fails_with w1 FAILURE_DEFAULT "interface_config_locked") /\
     (isinstance e ValueError = false \/ exn_str e <> "Configuration locked!" ->
      o = Raise e)).
Proof.
  intros k w usb_applications nfc_applications usb_enabled nfc_enabled lock_code
    lock c s e.
  apply (write_config_device_refusal (lib := Sim.yubikit) (dev := Rig.device)
           w usb_applications nfc_applications usb_enabled nfc_enabled lock_code
           lock c (mkYkDevice 0x0407%Z) Sim.the_info s e k k k k eq_refl eq_refl).
  - right. exists Rig.zeros32, (Sim.zeros 16). repeat split.
  - reflexivity.
  - reflexivity.
  - reflexivity.
  - reflexivity.
Defined.

(** X5 on an application name that [APPLICATION] does not have. *)
Lemma write_config_unknown_application_witness :
  let w := module_world Sim.key in
  exists e,
    write_config ["PIV"; "PGP"] ["OTP"] None w = (Raise e, w) /\
    exn_type e = KeyError.
Proof.
  intros w.
  apply (write_config_unknown_application (lib := Sim.yubikit) (dev := Sim.key_device)
           w ["PIV"; "PGP"] ["OTP"] None "PGP").
  - right. left. reflexivity.
  - reflexivity.
Defined.

(** X6 on the three methods and the key of [Sim]. *)
Lemma connection_closed_last_witness :
  let w := module_world Sim.key in
  let c := 0%nat in
  (exists t,
     trace (snd (write_config ["PIV"] [] (Some "zz") w))
     = t ++ [Ev (connection_close c)]) /\
  (exists t,
     trace (snd (piv_change_pin "000000" "654321" w))
     = t ++ [Ev (connection_close c)]) /\
  (exists t,
     trace (snd (program_otp 1%Z "cccccccccccc" "010203040506"
                   "000102030405060708090a0b0c0d0e0f" true "unknown" w))
     = t ++ [Ev (connection_close c)]).
Proof.
  intros w c.
  pose proof (connection_closed_last (lib := Sim.yubikit) (dev := Sim.key_device)
                w c (mkYkDevice 0x0407%Z) Sim.the_info Sim.key) as (H1 & H2 & H3).
  split; [|split].
  - apply (H1 ["PIV"] [] (Some "zz") 0x10%Z 0%Z eq_refl eq_refl eq_refl).
  - apply (H2 "000000" "654321" eq_refl).
  - apply (H3 1%Z "cccccccccccc" "010203040506" "000102030405060708090a0b0c0d0e0f"
             true "unknown" (Sim.zeros 0 ++ map byte_of_ascii
                               (map ascii_of_nat [0;1;2;3;4;5;6;7;8;9;10;11;12;13;14;15]))
             [] (map byte_of_ascii (map ascii_of_nat [1;2;3;4;5;6])) Sim.key
             eq_refl eq_refl eq_refl eq_refl).
Defined.

(** X7 on a wrong old PIN: two tries are left afterwards. *)
Lemma piv_change_pin_wrong_pin_witness :
  let w := module_world Sim.key in
  let old_pin := "000000" in
  let new_pin := "654321" in
  let c := 0%nat in
  let s := 0%nat in
  let n := 2%Z in
  let d5 := Sim.with_tries Sim.key 2%Z in
  exists l w1,
    piv_change_pin old_pin new_pin w = (Ret l, w1) /\
    deref w1 l
    = [("tries_left", VInt n); ("success", VBool false);
       ("error_id", VStr "wrong_pin")] /\
    trace w1
    = trace w ++ [Ev (connect_to_device (Some ALL_INTERFACES)); Ev (PivSession c);
                  Ev (change_pin s old_pin new_pin); Ev (get_pin_attempts s);
                  Ev (connection_close c)] /\
    device w1 = d5.
Proof.
  intros w old_pin new_pin c s n d5.
  apply (piv_change_pin_wrong_pin (lib := Sim.yubikit) (dev := Sim.key_device)
           w old_pin new_pin c (mkYkDevice 0x0407%Z) Sim.the_info s Sim.invalid_pin n
           Sim.key Sim.key d5 d5 d5 eq_refl eq_refl eq_refl eq_refl eq_refl eq_refl).
Defined.

(** X8 on a key that answers [INCORRECT_PARAMETERS], and on one that
    answers another status word. *)
Lemma piv_change_pin_apdu_error_witness :
  let old_pin := "123456" in
  let new_pin := "1" in
  let c := 0%nat in
  let s := 0%nat in
  let k1 := Rig.mkKey Sim.key (Rig.change_pin_refused Rig.incorrect_parameters) in
  let k2 := Rig.mkKey Sim.key
              (Rig.change_pin_refused Sim.security_condition_not_satisfied) in
  (exists w1,
     piv_change_pin old_pin new_pin (module_world k1) = (Ret FAILURE_DEFAULT, w1) /\
     fails_with w1 FAILURE_DEFAULT "incorrect_parameters" /\
     trace w1
     = trace (module_world k1) ++
       [Ev (connect_to_device (Some ALL_INTERFACES)); Ev (PivSession c);
        Ev (change_pin s old_pin new_pin); Ev (connection_close c)]) /\
  (exists l w1,
     piv_change_pin old_pin new_pin (module_world k2) = (Ret l, w1) /\
     deref w1 l = [("success", VBool false); ("tries_left", VInt 3)] /\
     dict_get (deref w1 l) "error_id" = None /\
     trace w1
     = trace (module_world k2) ++
       [Ev (connect_to_device (Some ALL_INTERFACES)); Ev (PivSession c);
        Ev (change_pin s old_pin new_pin); Ev (get_pin_attempts s);
        Ev (connection_close c)]).
Proof.
  intros old_pin new_pin c s k1 k2. split.
  - apply (proj1 (piv_change_pin_apdu_error (lib := Sim.yubikit) (dev := Rig.device)
                    (module_world k1) old_pin new_pin c (mkYkDevice 0x0407%Z)
                    Sim.the_info s Rig.incorrect_parameters k1 k1 k1
                    eq_refl eq_refl eq_refl eq_refl) eq_refl k1 eq_refl).
  - apply (proj2 (piv_change_pin_apdu_error (lib := Sim.yubikit) (dev := Rig.device)
                    (module_world k2) old_pin new_pin c (mkYkDevice 0x0407%Z)
                    Sim.the_info s Sim.security_condition_not_satisfied k2 k2 k2
                    eq_refl eq_refl eq_refl eq_refl)
             ltac:(discriminate) 3%Z k2 k2 eq_refl eq_refl).
Defined.

(** X9 on a key whose upload is refused with two errors. *)
Lemma program_otp_upload_failed_witness :
  let w := Rig.refreshed (Rig.upload_refused Rig.upload_failed) in
  let slot := 1%Z in
  let public_id := "cccccccccccc" in
  let private_id := "010203040506" in
  let key := "000102030405060708090a0b0c0d0e0f" in
  let app_version := "1.2.5" in
  let kb := map byte_of_ascii
              (map ascii_of_nat [0;1;2;3;4;5;6;7;8;9;10;11;12;13;14;15]) in
  let pb := @nil byte in
  let qb := map byte_of_ascii (map ascii_of_nat [1;2;3;4;5;6]) in
  let serial0 := VInt 7654321 in
  let c := 0%nat in
  let e := Rig.upload_failed in
  exists l w1,
    program_otp slot public_id private_id key true app_version w = (Ret l, w1) /\
    deref w1 l
    = [("upload_errors", VList (map VStr (exn_errors e)));
       ("success", VBool false); ("error_id", VStr "upload_failed")] /\
    trace w1
    = trace w ++ [Ev (modhex_decode public_id); Ev (connect_to_device (Some [OTP]));
                  Ev (prepare_upload_key kb pb qb serial0 ("ykman-qt/" ++ app_version));
                  Ev (connection_close c)].
Proof.
  intros w slot public_id private_id key app_version kb pb qb serial0 c e.
  apply (program_otp_upload_failed (dev := Rig.device)
           w slot public_id private_id key app_version kb pb qb
           [("name", VStr "YubiKey 5 NFC"); ("serial", VInt 7654321)] serial0
           c (mkYkDevice 0x0407%Z) Sim.the_info e
           (device w) (device w) (device w) (device w)
           eq_refl eq_refl eq_refl eq_refl eq_refl eq_refl eq_refl eq_refl eq_refl).
Defined.

(** X10 on slot 1 of the key of [Sim]. *)
Lemma program_otp_programs_slot_witness :
  let w := module_world Sim.key in
  let slot := 1%Z in
  let public_id := "cccccccccccc" in
  let private_id := "010203040506" in
  let key := "000102030405060708090a0b0c0d0e0f" in
  let app_version := "unknown" in
  let kb := map byte_of_ascii
              (map ascii_of_nat [0;1;2;3;4;5;6;7;8;9;10;11;12;13;14;15]) in
  let pb := @nil byte in
  let qb := map byte_of_ascii (map ascii_of_nat [1;2;3;4;5;6]) in
  let c := 0%nat in
  let s := 0%nat in
  exists l w1,
    program_otp slot public_id private_id key false app_version w = (Ret l, w1) /\
    deref w1 l = [("upload_url", VNone); ("success", VBool true)] /\
    trace w1
    = trace w ++ [Ev (modhex_decode public_id); Ev (connect_to_device (Some [OTP]));
                  Ev (YubiOtpSession c); Ev (YubiOtpSlotConfiguration pb qb kb);
                  Ev (put_configuration s slot pb qb kb);
                  Ev (connection_close c)].
Proof.
  intros w slot public_id private_id key app_version kb pb qb c s.
  apply (program_otp_programs_slot (dev := Sim.key_device)
           w slot public_id private_id key app_version kb pb qb
           c (mkYkDevice 0x0407%Z) Sim.the_info s
           Sim.key Sim.key Sim.key Sim.key (Sim.written Sim.key) (Sim.written Sim.key)
           eq_refl eq_refl eq_refl eq_refl eq_refl eq_refl eq_refl eq_refl).
Defined.

(** X11 on a key that does not answer the configuration command, with
    upload. *)
Lemma program_otp_write_error_witness :
  let k := Rig.mkKey Sim.key (Rig.configuration_refused Rig.no_response) in
  let w := Rig.refreshed (Rig.configuration_refused Rig.no_response) in
  let slot := 2%Z in
  let public_id := "cccccccccccc" in
  let private_id := "010203040506" in
  let key := "000102030405060708090a0b0c0d0e0f" in
  let app_version := "unknown" in
  let upload := true in
  let kb := map byte_of_ascii
              (map ascii_of_nat [0;1;2;3;4;5;6;7;8;9;10;11;12;13;14;15]) in
  let pb : bytes := [] in
  let qb := map byte_of_ascii (map ascii_of_nat [1;2;3;4;5;6]) in
  let uploaded :=
    [Ev (prepare_upload_key kb pb qb (VInt 7654321) ("ykman-qt/" ++ app_version))] in
  let c := 0%nat in
  let s := 0%nat in
  let e := Rig.no_response in
  exists o w1,
    program_otp slot public_id private_id key upload app_version w = (o, w1) /\
    (isinstance e CommandError = true ->
     o = Ret FAILURE_DEFAULT /\ fails_with w1 FAILURE_DEFAULT "write error") /\
    (isinstance e CommandError = false -> o = Raise e) /\
    trace w1
    = trace w ++ [Ev (modhex_decode public_id); Ev (connect_to_device (Some [OTP]))]
        ++ uploaded
        ++ [Ev (YubiOtpSession c); Ev (YubiOtpSlotConfiguration pb qb kb);
            Ev (put_configuration s slot pb qb kb); Ev (connection_close c)].
Proof.
  intros k w slot public_id private_id key app_version upload kb pb qb uploaded c s e.
  apply (program_otp_write_error (dev := Rig.device)
           w slot public_id private_id key app_version upload kb pb qb uploaded
           c (mkYkDevice 0x0407%Z) Sim.the_info s e k k k k k k k
           eq_refl eq_refl eq_refl eq_refl).
  - right. split; [reflexivity|].
    exists [("name", VStr "YubiKey 5 NFC"); ("serial", VInt 7654321)],
      (VInt 7654321), "https://upload.yubico.com/".
    repeat split.
  - reflexivity.
  - reflexivity.
  - reflexivity.
  - reflexivity.
Defined.

(** X12 on the key of [Sim] right after the module is loaded. *)
Lemma program_otp_upload_without_dev_info_witness :
  let w := module_world Sim.key in
  let slot := 1%Z in
  let public_id := "cccccccccccc" in
  let private_id := "010203040506" in
  let key := "000102030405060708090a0b0c0d0e0f" in
  let app_version := "unknown" in
  let c := 0%nat in
  exists e w1,
    program_otp slot public_id private_id key true app_version w = (Raise e, w1) /\
    exn_type e = TypeError /\
    trace w1
    = trace w ++ [Ev (modhex_decode public_id); Ev (connect_to_device (Some [OTP]));
                  Ev (connection_close c)] /\
    store w1 = store w.
Proof.
  intros w slot public_id private_id key app_version c.
  apply (program_otp_upload_without_dev_info (dev := Sim.key_device)
           w slot public_id private_id key app_version
           (map byte_of_ascii
              (map ascii_of_nat [0;1;2;3;4;5;6;7;8;9;10;11;12;13;14;15]))
           [] (map byte_of_ascii (map ascii_of_nat [1;2;3;4;5;6]))
           c (mkYkDevice 0x0407%Z) Sim.the_info Sim.key Sim.key Sim.key
           eq_refl eq_refl eq_refl eq_refl eq_refl eq_refl).
Defined.

(** X13 on a key held by another program, and on a key whose connection
    cannot be closed. *)
Lemma refresh_connect_failure_witness :
  let w1 := module_world (Sim.busy Sim.key) in
  let k := Rig.mkKey Sim.key (Rig.close_fails Rig.no_response) in
  let w2 := module_world k in
  let c := 0%nat in
  (exists w',
     refresh w1 = (Ret FAILURE_DEFAULT, w') /\
     fails_with w' FAILURE_DEFAULT "no_device" /\
     _state w' = None /\ _dev_info w' = None /\
     trace w' = trace w1 ++ [Ev scan_devices; Ev (connect_to_device None)]) /\
  (exists w',
     refresh w2 = (Ret FAILURE_DEFAULT, w') /\
     fails_with w' FAILURE_DEFAULT "no_device" /\
     _state w' = None /\ _dev_info w' = None /\
     trace w' = trace w2 ++ [Ev scan_devices; Ev (connect_to_device None);
                             Ev (connection_close c)]).
Proof.
  intros w1 k w2 c. split.
  - apply (proj1 (refresh_connect_failure (lib := Sim.yubikit) (dev := Sim.key_device)
                    w1 [(0x0407%Z, 1%nat)] 11%Z (Sim.busy Sim.key)
                    eq_refl eq_refl eq_refl)
             Sim.no_key (Sim.waited Sim.key 0) eq_refl).
  - apply (proj2 (refresh_connect_failure (lib := Sim.yubikit) (dev := Rig.device)
                    w2 [(0x0407%Z, 1%nat)] 11%Z k eq_refl eq_refl eq_refl)
             c (mkYkDevice 0x0407%Z) Sim.the_info Rig.no_response k k
             eq_refl eq_refl).
Defined.

(** X14 on a device whose information has no entry for USB. *)
Lemma refresh_after_info_failure_witness :
  let k := Rig.mkKey Sim.key Rig.no_usb_entry in
  let w := module_world k in
  let state := 11%Z in
  let e := new_exn TypeError "argument of type 'NoneType' is not iterable" in
  exists w1 l w2,
    refresh w = (Raise e, w1) /\
    _state w1 = Some state /\ _dev_info w1 = _dev_info w /\
    refresh w1 = (Ret l, w2) /\
    deref w2 l = [("dev", opt_dict (_dev_info w)); ("success", VBool true)] /\
    trace w2 = trace w1 ++ [Ev scan_devices].
Proof.
  intros k w state e.
  apply (refresh_after_info_failure (lib := Sim.yubikit) (dev := Rig.device)
           w [(0x0407%Z, 1%nat)] state 0%nat (mkYkDevice 0x0407%Z)
           Rig.info_without_usb e k k k k
           eq_refl eq_refl eq_refl eq_refl eq_refl eq_refl eq_refl).
Defined.

(** X15 on the information of the key of [Sim], version 5.2.4. *)
Lemma can_write_config_from_major_witness :
  exists d,
    build_dev_info (lib := Sim.yubikit) (mkYkDevice 0x0407%Z) Sim.the_info = Ret d /\
    dict_get d "can_write_config" = Some (VBool (5 <=? 5)%Z).
Proof.
  eexists. split; [reflexivity|].
  apply (proj2 (can_write_config_from_major (lib := Sim.yubikit)
                  (mkYkDevice 0x0407%Z) Sim.the_info _ eq_refl)
           5%Z 2%Z 4%Z eq_refl); discriminate.
Defined.

(** X19 on [program_otp]: with the key [zz], and with upload before any
    [refresh]. *)
Lemma public_text_after_exception_witness :
  let w := module_world Sim.key in
  let f := program_otp 1%Z "cccccccccccc" "010203040506" "00" true "unknown" in
  let w1 := snd (f w) in
  let e := new_exn TypeError "'NoneType' object is not subscriptable" in
  (isinstance e ValueError = true ->
   failure_default_clean (store w1) ->
   exists w2,
     public f w
     = (Ret ("{" ++ json_string "success" ++ ": false, "
                 ++ json_string "error_id" ++ ": "
                 ++ json_string "open_device_failed" ++ "}")%string, w2) /\
     trace w2 = trace w1) /\
  (isinstance e Exception = true ->
   isinstance e ValueError = false ->
   isinstance e EstablishContextException = false ->
   exn_str e <> "Incorrect padding" ->
   exists w2,
     public f w
     = (Ret ("{" ++ json_string "error_message" ++ ": " ++ json_string (exn_str e)
                 ++ ", " ++ json_string "success" ++ ": false, "
                 ++ json_string "error_id" ++ ": null}")%string, w2) /\
     trace w2 = trace w1).
Proof.
  intros w f w1 e.
  apply (public_text_after_exception f w w1 e eq_refl).
Defined.

(** X20 on the management key of 24 zero bytes. *)
Lemma generated_mgm_key_accepted_witness :
  let data := Sim.zeros 24 in
  let w := module_world Sim.key in
  let s := 0%nat in
  let pin : option string := None in
  let d' := Sim.key in
  well_formed_mgm_key (b2a_hex data) = true /\
  a2b_hex (b2a_hex data) = Ret data /\
  _piv_ensure_authenticated s pin (Some (b2a_hex data)) w
  = (Ret None,
     mkWorld d' (store w)
       (trace w ++ [Ev (get_pivman_data s); Ev (authenticate s data)])
       (_state w) (_dev_info w)).
Proof.
  intros data w s pin d'.
  apply (generated_mgm_key_accepted (dev := Sim.key_device)
           data w s (mkPivman false false false false) pin (Ret tt) Sim.key d'
           eq_refl eq_refl eq_refl eq_refl).
Defined.
